(** * Enterprise-RAG-2.0: the retrieval service, embedded and verified

    The repository holds two Python files.

    - [create_rag.py] is a generator: it writes the text [rag_code] to
      [src/api/server.py].  That text is a FastAPI application with a
      start-up hook and five endpoints.  It is embedded below as
      [Module Generated].
    - [src/api/server.py], as committed, is a two-endpoint application.  It
      is embedded below as [Module Committed].

    The handlers talk to three collaborators that are not part of the
    repository: the Qdrant client, the OpenAI embedding endpoint and the
    [uuid] module (plus [print]).  A handler is therefore embedded as a
    program over an interface of collaborator calls ([Prog]); running a
    program against an arbitrary implementation of the interface ([run])
    gives its outcome, the final state of the outside world and the list
    of calls it made, in order.  Theorems quantify over every
    implementation of the interface; a small in-memory one ([Fake]) is
    used to exercise them. *)

From Stdlib Require Import ZArith NArith List String Ascii Bool Lia.
From Stdlib Require Import Floats.SpecFloat.
Import ListNotations.

Set Implicit Arguments.
Local Open Scope Z_scope.

(** ** Python data *)

(** A Python [str] is a sequence of code points; slicing and [len] count
    code points.  [py] turns an ASCII literal of the source into one. *)
Definition str : Type := list N.

Definition py (s : string) : str :=
  List.map N_of_ascii (list_ascii_of_string s).
Arguments py : simpl never.

Fixpoint str_eqb (a b : str) : bool :=
  match a, b with
  | [], [] => true
  | x :: a', y :: b' => N.eqb x y && str_eqb a' b'
  | _, _ => false
  end.

(** A Python [float] is an IEEE 754 binary64 value. *)
Definition float : Type := spec_float.

#[local] Set Warnings "-register-all".

(** The Python values that travel through the handlers: what a JSON
    payload holds and what an endpoint returns. *)
Inductive value : Type :=
| VNone
| VInt (z : Z)
| VFloat (f : float)
| VStr (s : str)
| VList (l : list value)
| VDict (d : list (str * value)).

(** A dict literal keeps its keys in the order written. *)
Definition dict : Type := list (str * value).

Fixpoint dict_get (d : dict) (key : str) : option value :=
  match d with
  | [] => None
  | (k, v) :: d' => if str_eqb k key then Some v else dict_get d' key
  end.

(** [x in xs] on a list of strings. *)
Definition contains (xs : list str) (x : str) : bool :=
  existsb (str_eqb x) xs.

(** [bool(s)] for a string: the empty string is the only falsy one. *)
Definition truthy (s : str) : bool :=
  match s with
  | [] => false
  | _ :: _ => true
  end.

(** [len(xs)] *)
Definition len {A} (xs : list A) : Z := Z.of_nat (List.length xs).

(** ** Exceptions *)

(** [HTTPException] is FastAPI's; [PyExc cls msg] stands for an instance
    of any other subclass of [Exception], by class name and message.
    What [except Exception] does not catch (cancellation, interrupts) is
    outside the model. *)
Inductive exn : Type :=
| HTTPException (status_code : Z) (detail : str)
| PyExc (cls : str) (msg : str).

Inductive outcome (A : Type) : Type :=
| Returned (a : A)
| Raised (e : exn).
Arguments Returned {A} a.
Arguments Raised {A} e.

(** ** Collaborator data (qdrant_client.models, openai, uuid) *)

Inductive Distance : Type := COSINE | EUCLID | DOT.

Record VectorParams : Type := mkVectorParams
  { size : Z; distance : Distance }.

Record CollectionDescription : Type := mkCollectionDescription
  { name : str }.

Record CollectionsResponse : Type := mkCollectionsResponse
  { collections : list CollectionDescription }.

Record PointStruct : Type := mkPointStruct
  { point_id : value; point_vector : list float; point_payload : dict }.

Record ScoredPoint : Type := mkScoredPoint
  { hit_id : value; hit_score : float; hit_payload : option dict }.

Record Embedding : Type := mkEmbedding
  { embedding : list float }.

Record EmbeddingResponse : Type := mkEmbeddingResponse
  { data : list Embedding }.

Record UUID : Type := mkUUID
  { uuid_str : str (* str(u) *) }.

(** What [print] is given: a literal, or the f-string [f"Error: {e}"]. *)
Inductive Line : Type :=
| Literal (s : str)
| ErrorLine (e : exn).

(** ** The interface to the outside world *)

Inductive Call : Type :=
| get_collections
| create_collection (collection_name : str) (vectors_config : VectorParams)
| upsert (collection_name : str) (points : list PointStruct)
| client_search (collection_name : str) (query_vector : list float) (limit : Z)
| Embedding_acreate (model : str) (input : str)
| uuid4
| print (line : Line).

(** The answer to a call.  Network calls return or raise; [uuid4] and
    [print] return. *)
Definition Ans (c : Call) : Type :=
  match c with
  | get_collections => outcome CollectionsResponse
  | create_collection _ _ => outcome unit
  | upsert _ _ => outcome unit
  | client_search _ _ _ => outcome (list ScoredPoint)
  | Embedding_acreate _ _ => outcome EmbeddingResponse
  | uuid4 => UUID
  | print _ => unit
  end.

(** ** Programs *)

Inductive Prog (A : Type) : Type :=
| Ret (a : A)
| Raise (e : exn)
| Do (c : Call) (k : Ans c -> Prog A).
Arguments Ret {A} a.
Arguments Raise {A} e.
Arguments Do {A} c k.

Fixpoint bind {A B} (p : Prog A) (f : A -> Prog B) : Prog B :=
  match p with
  | Ret a => f a
  | Raise e => Raise e
  | Do c k => Do c (fun a => bind (k a) f)
  end.

(** [try: p  except Exception as e: h e] *)
Fixpoint try_except {A} (p : Prog A) (h : exn -> Prog A) : Prog A :=
  match p with
  | Ret a => Ret a
  | Raise e => h e
  | Do c k => Do c (fun a => try_except (k a) h)
  end.

Declare Scope prog_scope.
Delimit Scope prog_scope with prog.
Bind Scope prog_scope with Prog.
Notation "x <- p ;; q" := (bind p (fun x => q))
  (at level 61, p at next level, right associativity) : prog_scope.
Notation "p ;; q" := (bind p (fun _ => q))
  (at level 61, right associativity) : prog_scope.
Local Open Scope prog_scope.

Definition lift {A} (o : outcome A) : Prog A :=
  match o with
  | Returned a => Ret a
  | Raised e => Raise e
  end.

(** A list comprehension whose element expression may raise: elements
    are evaluated left to right and the first exception ends it. *)
Fixpoint comprehension {A B} (f : A -> Prog B) (xs : list A) : Prog (list B) :=
  match xs with
  | [] => Ret []
  | x :: xs' => y <- f x ;; ys <- comprehension f xs' ;; Ret (y :: ys)
  end.

(** [xs[0]] *)
Definition first_item {A} (xs : list A) : Prog A :=
  match xs with
  | x :: _ => Ret x
  | [] => Raise (PyExc (py "IndexError") (py "list index out of range"))
  end.

(** [payload[key]] where [payload] is a dict or [None]. *)
Definition subscript (payload : option dict) (key : str) : Prog value :=
  match payload with
  | None => Raise (PyExc (py "TypeError") (py "'NoneType' object is not subscriptable"))
  | Some d =>
      match dict_get d key with
      | Some v => Ret v
      | None => Raise (PyExc (py "KeyError") key)
      end
  end.

(** [v[:n]]: defined on sequences, a [TypeError] elsewhere. *)
Definition slice_to (n : nat) (v : value) : Prog value :=
  match v with
  | VStr s => Ret (VStr (firstn n s))
  | VList l => Ret (VList (firstn n l))
  | _ => Raise (PyExc (py "TypeError") (py "object is not subscriptable"))
  end.

(** ** The generated server: the text [rag_code] of [create_rag.py] *)

Module Generated.

Definition COLLECTION_NAME : str := py "ai_docs_2026".

(** [@app.on_event("startup")] *)
Definition startup_event : Prog unit :=
  try_except
    (collections_ <- Do get_collections lift ;;
     if negb (contains (List.map name (collections collections_)) COLLECTION_NAME)
     then
       Do (create_collection COLLECTION_NAME
             (mkVectorParams 1536 COSINE)) lift ;;
       Do (print (Literal (py "Created collection"))) Ret
     else
       Do (print (Literal (py "Collection exists"))) Ret)
    (fun e => Do (print (ErrorLine e)) Ret).

Definition get_embedding (text : str) : Prog (list float) :=
  try_except
    (response <- Do (Embedding_acreate (py "text-embedding-3-small") text) lift ;;
     item <- first_item (data response) ;;
     Ret (embedding item))
    (fun e => Raise (HTTPException 500 (py "Embedding failed"))).

(** [@app.get("/")] *)
Definition root : Prog value :=
  Ret (VDict [(py "system", VStr (py "AI Core 2026 RAG"));
              (py "status", VStr (py "ready"))]).

(** [@app.get("/health")] *)
Definition health : Prog value :=
  Ret (VDict [(py "status", VStr (py "healthy"));
              (py "services", VStr (py "ok"))]).

(** [@app.post("/add_document")] *)
Definition add_document (text : str) : Prog value :=
  if negb (truthy text) then
    Raise (HTTPException 400 (py "Text required"))
  else
    embedding_ <- get_embedding text ;;
    u <- Do uuid4 Ret ;;
    let doc_id := uuid_str u in
    let point :=
      mkPointStruct (VStr doc_id) embedding_ [(py "text", VStr text)] in
    Do (upsert COLLECTION_NAME [point]) lift ;;
    Ret (VDict [(py "status", VStr (py "added")); (py "id", VStr doc_id)]).

(** One element of the comprehension in [search]. *)
Definition result_of_hit (hit : ScoredPoint) : Prog value :=
  text <- subscript (hit_payload hit) (py "text") ;;
  snippet <- slice_to 100 text ;;
  Ret (VDict [(py "id", hit_id hit);
              (py "score", VFloat (hit_score hit));
              (py "text", snippet)]).

(** [@app.get("/search")]; [limit] defaults to 3. *)
Definition search (query : str) (limit : Z) : Prog value :=
  if negb (truthy query) then
    Raise (HTTPException 400 (py "Query required"))
  else
    query_embedding <- get_embedding query ;;
    results <- Do (client_search COLLECTION_NAME query_embedding limit) lift ;;
    items <- comprehension result_of_hit results ;;
    Ret (VDict [(py "query", VStr query); (py "results", VList items)]).

Definition search_default_limit : Z := 3.

(** [@app.get("/embed")]; [text] defaults to ["Hello"]. *)
Definition embed (text : str) : Prog value :=
  embedding_ <- get_embedding text ;;
  Ret (VDict [(py "text", VStr text);
              (py "dimensions", VInt (len embedding_));
              (py "sample", VList (List.map VFloat (firstn 3 embedding_)))]).

Definition embed_default_text : str := py "Hello".

End Generated.

(** ** The committed server: [src/api/server.py] *)

Module Committed.

(** [@app.get("/")] *)
Definition root : Prog value :=
  Ret (VDict [(py "system", VStr (py "AI Core 2026"));
              (py "status", VStr (py "production"))]).

(** [@app.get("/health")] *)
Definition health : Prog value :=
  Ret (VDict [(py "status", VStr (py "healthy"))]).

End Committed.

(** ** Route tables *)

(** An endpoint, by the signature of its function. *)
Inductive Endpoint : Type :=
| NoParams (h : Prog value)
| StrParam (param : str) (default : option str) (h : str -> Prog value)
| StrIntParam (param1 : str) (param2 : str) (default2 : Z)
    (h : str -> Z -> Prog value).

Record Route : Type := mkRoute
  { method : str; path : str; endpoint : Endpoint }.

(** The decorators of each module, top to bottom. *)
Definition generated_app : list Route :=
  [ mkRoute (py "GET") (py "/") (NoParams Generated.root);
    mkRoute (py "GET") (py "/health") (NoParams Generated.health);
    mkRoute (py "POST") (py "/add_document")
      (StrParam (py "text") None Generated.add_document);
    mkRoute (py "GET") (py "/search")
      (StrIntParam (py "query") (py "limit") Generated.search_default_limit
         Generated.search);
    mkRoute (py "GET") (py "/embed")
      (StrParam (py "text") (Some Generated.embed_default_text) Generated.embed) ].

Definition committed_app : list Route :=
  [ mkRoute (py "GET") (py "/") (NoParams Committed.root);
    mkRoute (py "GET") (py "/health") (NoParams Committed.health) ].

Definition paths (app : list Route) : list (str * str) :=
  List.map (fun r => (method r, path r)) app.

(** ** Running a program against the outside world *)

Section Run.

(** The state of everything outside the process, and how it answers. *)
Variable World : Type.
Variable world : forall c : Call, World -> Ans c * World.

(** Outcome, final world, and the calls made, first to last. *)
Fixpoint run {A} (p : Prog A) (w : World) : outcome A * World * list Call :=
  match p with
  | Ret a => (Returned a, w, [])
  | Raise e => (Raised e, w, [])
  | Do c k =>
      let '(a, w1) := world c w in
      let '(o, w2, calls) := run (k a) w1 in
      (o, w2, c :: calls)
  end.

Definition result {A} (p : Prog A) (w : World) : outcome A :=
  fst (fst (run p w)).

Definition after {A} (p : Prog A) (w : World) : World :=
  snd (fst (run p w)).

Definition calls {A} (p : Prog A) (w : World) : list Call :=
  snd (run p w).

End Run.

(** What the framework sends for a handler's outcome: a returned value
    is the body of a 200; an [HTTPException] gives its status and its
    detail; any other exception is a bare 500. *)
Definition http_response (o : outcome value) : Z * value :=
  match o with
  | Returned v => (200, v)
  | Raised (HTTPException status_code detail) =>
      (status_code, VDict [(py "detail", VStr detail)])
  | Raised (PyExc _ _) => (500, VStr (py "Internal Server Error"))
  end.

(** ** Classifying calls *)

Definition is_upsert (c : Call) : bool :=
  match c with upsert _ _ => true | _ => false end.

Definition is_embedding_call (c : Call) : bool :=
  match c with Embedding_acreate _ _ => true | _ => false end.

Definition is_store_call (c : Call) : bool :=
  match c with
  | get_collections | create_collection _ _ | upsert _ _
  | client_search _ _ _ => true
  | _ => false
  end.

Definition is_create (c : Call) : bool :=
  match c with create_collection _ _ => true | _ => false end.

(** ** An in-memory outside world

    A small stand-in for the three collaborators: a registry of
    collections, the points of the service's collection ranked by cosine
    similarity in binary64 arithmetic, a deterministic embedding
    provider that can be switched off, a counter for identifiers and the
    lines printed so far. *)

Module Fake.

Definition prec : Z := 53.
Definition emax : Z := 1024.

Definition fadd : float -> float -> float := SFadd prec emax.
Definition fmul : float -> float -> float := SFmul prec emax.
Definition fdiv : float -> float -> float := SFdiv prec emax.
Definition fsqrt : float -> float := SFsqrt prec emax.
Definition of_Z (z : Z) : float := binary_normalize prec emax z 0 false.

Fixpoint dot (a b : list float) : float :=
  match a, b with
  | x :: a', y :: b' => fadd (fmul x y) (dot a' b')
  | _, _ => S754_zero false
  end.

Definition cosine (a b : list float) : float :=
  fdiv (dot a b) (fmul (fsqrt (dot a a)) (fsqrt (dot b b))).

Record World : Type := mkWorld
  { registry : list (str * VectorParams);
    points_ : list PointStruct;
    provider_up : bool;
    next_uuid : N;
    stdout : list Line }.

Definition DIMENSION : nat := 1536.

(** The provider: code points as coordinates, padded with zeros. *)
Definition embed_text (text : str) : list float :=
  List.map (fun c => of_Z (Z.of_N c))
    (firstn DIMENSION (text ++ repeat 0%N DIMENSION)).

Definition hex_digit (d : N) : N :=
  if (d <? 10)%N then (48 + d)%N else (87 + d)%N.

Fixpoint hex (digits : nat) (n : N) : str :=
  match digits with
  | O => []
  | S digits' => hex digits' (N.div n 16) ++ [hex_digit (N.modulo n 16)]
  end.

Definition uuid_of (n : N) : UUID :=
  mkUUID (py "00000000-0000-4000-8000-" ++ hex 12 n).

Definition value_eqb_id (a b : value) : bool :=
  match a, b with
  | VStr x, VStr y => str_eqb x y
  | VInt x, VInt y => Z.eqb x y
  | _, _ => false
  end.

Definition put_point (p : PointStruct) (ps : list PointStruct) : list PointStruct :=
  p :: filter (fun q => negb (value_eqb_id (point_id q) (point_id p))) ps.

Fixpoint insert_hit (h : ScoredPoint) (hs : list ScoredPoint) : list ScoredPoint :=
  match hs with
  | [] => [h]
  | h' :: hs' =>
      if SFleb (hit_score h') (hit_score h) then h :: hs
      else h' :: insert_hit h hs'
  end.

Definition rank (q : list float) (ps : list PointStruct) : list ScoredPoint :=
  fold_right
    (fun p acc =>
       insert_hit
         (mkScoredPoint (point_id p) (cosine q (point_vector p))
            (Some (point_payload p))) acc)
    [] ps.

Definition has_collection (w : World) (n : str) : bool :=
  contains (List.map fst (registry w)) n.

Definition params_of (w : World) (n : str) : option VectorParams :=
  match filter (fun e => str_eqb (fst e) n) (registry w) with
  | e :: _ => Some (snd e)
  | [] => None
  end.

(** How many collections of that name the registry holds. *)
Definition holds (w : World) (n : str) : nat :=
  List.length (filter (fun e => str_eqb (fst e) n) (registry w)).

Definition not_found : exn :=
  PyExc (py "UnexpectedResponse") (py "404 Not Found").
Definition conflict : exn :=
  PyExc (py "UnexpectedResponse") (py "409 Conflict").
Definition bad_request : exn :=
  PyExc (py "UnexpectedResponse") (py "400 Bad Request").
Definition provider_error : exn :=
  PyExc (py "APIConnectionError") (py "connect to api.openai.com: sk-secret rejected").

Definition world (c : Call) : World -> Ans c * World :=
  match c as c0 return World -> Ans c0 * World with
  | get_collections => fun w =>
      (Returned (mkCollectionsResponse
                   (List.map (fun e => mkCollectionDescription (fst e))
                      (registry w))), w)
  | create_collection n p => fun w =>
      if has_collection w n then (Raised conflict, w)
      else (Returned tt,
            mkWorld (registry w ++ [(n, p)]) (points_ w) (provider_up w)
              (next_uuid w) (stdout w))
  | upsert n ps => fun w =>
      if has_collection w n then
        (Returned tt,
         mkWorld (registry w) (fold_left (fun acc p => put_point p acc) ps (points_ w))
           (provider_up w) (next_uuid w) (stdout w))
      else (Raised not_found, w)
  | client_search n q k => fun w =>
      if negb (has_collection w n) then (Raised not_found, w)
      else if k <? 1 then (Raised bad_request, w)
      else (Returned (firstn (Z.to_nat k) (rank q (points_ w))), w)
  | Embedding_acreate _ text => fun w =>
      if provider_up w && truthy text
      then (Returned (mkEmbeddingResponse [mkEmbedding (embed_text text)]), w)
      else (Raised provider_error, w)
  | uuid4 => fun w =>
      (uuid_of (next_uuid w),
       mkWorld (registry w) (points_ w) (provider_up w)
         (N.succ (next_uuid w)) (stdout w))
  | print l => fun w =>
      (tt,
       mkWorld (registry w) (points_ w) (provider_up w) (next_uuid w)
         (stdout w ++ [l]))
  end.

(** Nothing stored, provider reachable. *)
Definition empty : World := mkWorld [] [] true 0 [].

(** The provider is down. *)
Definition offline : World := mkWorld [] [] false 0 [].

(** The service's collection is there already, created by someone else
    with 768 dimensions and the dot-product metric. *)
Definition foreign : World :=
  mkWorld [(py "ai_docs_2026", mkVectorParams 768 DOT)] [] true 0 [].

End Fake.

(** The world after one start-up. *)
Definition started : Fake.World :=
  after Fake.world Generated.startup_event Fake.empty.

(** A start-up followed by three insertions. *)
Definition seeded : Fake.World :=
  let w0 := after Fake.world Generated.startup_event Fake.empty in
  let w1 := after Fake.world (Generated.add_document (py "vector databases")) w0 in
  let w2 := after Fake.world (Generated.add_document (py "vector search")) w1 in
  after Fake.world (Generated.add_document (py "cooking pasta")) w2.

(** ** Vocabulary of the statements *)

Definition MODEL : str := py "text-embedding-3-small".

(** The provider call did not yield an embedding: it raised, or its
    response holds no item. *)
Definition embedding_failed (o : outcome EmbeddingResponse) : bool :=
  match o with
  | Raised _ => true
  | Returned r => match data r with [] => true | _ :: _ => false end
  end.

(** The text a hit carries, when its payload has a string under
    ["text"], as the points written by [add_document] do. *)
Definition stored_text (hit : ScoredPoint) : option str :=
  match hit_payload hit with
  | Some d =>
      match dict_get d (py "text") with
      | Some (VStr t) => Some t
      | _ => None
      end
  | None => None
  end.

Definition has_stored_text (hit : ScoredPoint) : bool :=
  match stored_text hit with Some _ => true | None => false end.

(** A field of a returned dict. *)
Definition field (v : value) (key : str) : option value :=
  match v with
  | VDict d => dict_get d key
  | _ => None
  end.

(** The ["results"] list of a search response. *)
Definition results_of (v : value) : list value :=
  match field v (py "results") with
  | Some (VList items) => items
  | _ => []
  end.

(** The scores found in a list of results, in order. *)
Definition scores_of (items : list value) : list float :=
  flat_map
    (fun item =>
       match field item (py "score") with
       | Some (VFloat f) => [f]
       | _ => []
       end) items.

(** Each element is at most the one before it. *)
Fixpoint non_increasing (xs : list float) : bool :=
  match xs with
  | a :: (b :: _) as rest => SFleb b a && non_increasing rest
  | _ => true
  end.

(** The laws of a collection registry, for an arbitrary outside world:
    [copies w n] is the number of collections named [n] in state [w]. *)
Record registry_laws (World : Type)
    (world : forall c : Call, World -> Ans c * World)
    (copies : World -> str -> nat) : Prop := mkRegistryLaws
  { listing_truthful :
      forall w r w1 n,
        world get_collections w = (Returned r, w1) ->
        contains (List.map name (collections r)) n = true <-> (0 < copies w n)%nat;
    listing_reads :
      forall w o w1 n,
        world get_collections w = (o, w1) -> copies w1 n = copies w n;
    creation_adds :
      forall w n p w1,
        world (create_collection n p) w = (Returned tt, w1) ->
        copies w1 n = S (copies w n);
    creation_refused :
      forall w n p e w1,
        world (create_collection n p) w = (Raised e, w1) ->
        copies w1 n = copies w n;
    printing_reads :
      forall w l u w1 n,
        world (print l) w = (u, w1) -> copies w1 n = copies w n }.

(** A result carries its hit's id, its score and a snippet of its
    text: the first 100 characters of the string, or the first 100
    elements of the list, that the hit's payload holds under ["text"]. *)
Definition carries (hit : ScoredPoint) (item : value) : Prop :=
  field item (py "id") = Some (hit_id hit)
  /\ field item (py "score") = Some (VFloat (hit_score hit))
  /\ exists d,
       hit_payload hit = Some d
       /\ ((exists t,
               dict_get d (py "text") = Some (VStr t)
               /\ field item (py "text") = Some (VStr (firstn 100 t)))
           \/ (exists l,
                  dict_get d (py "text") = Some (VList l)
                  /\ field item (py "text") = Some (VList (firstn 100 l)))).



(** The contract asked of start-up for a collection that exists with
    other parameters than the requested ones: it raises.  [params w n]
    are the parameters of the collection named [n] in state [w]. *)
Definition raises_on_schema_mismatch (World : Type)
    (world : forall c : Call, World -> Ans c * World)
    (params : World -> str -> option VectorParams) : Prop :=
  forall w p,
    params w Generated.COLLECTION_NAME = Some p ->
    p <> mkVectorParams 1536 COSINE ->
    exists e, result world Generated.startup_event w = Raised e.

(** ** More vocabulary: hits that can be sliced, canned collaborators *)

(** The payload has, under ["text"], a value that [[:100]] accepts: a
    string or a list. *)
Definition sliceable (hit : ScoredPoint) : bool :=
  match hit_payload hit with
  | Some d =>
      match dict_get d (py "text") with
      | Some (VStr _) | Some (VList _) => true
      | _ => false
      end
  | None => false
  end.

(** The ids found in a list of results, in order. *)
Definition ids_of (items : list value) : list value :=
  flat_map
    (fun item =>
       match field item (py "id") with
       | Some v => [v]
       | None => []
       end) items.

(** Collaborators that give one canned answer per kind of call and keep
    no state: a test double for the corner cases of the handlers. *)
Module Stub.

Record Answers : Type := mkAnswers
  { provider : outcome EmbeddingResponse;
    listing : outcome CollectionsResponse;
    creation : outcome unit;
    upserting : outcome unit;
    neighbours : outcome (list ScoredPoint);
    identifier : UUID }.

Definition world (c : Call) : Answers -> Ans c * Answers :=
  match c as c0 return Answers -> Ans c0 * Answers with
  | get_collections => fun a => (listing a, a)
  | create_collection _ _ => fun a => (creation a, a)
  | upsert _ _ => fun a => (upserting a, a)
  | client_search _ _ _ => fun a => (neighbours a, a)
  | Embedding_acreate _ _ => fun a => (provider a, a)
  | uuid4 => fun a => (identifier a, a)
  | print _ => fun a => (tt, a)
  end.

Definition unit_vector : list float := [Fake.of_Z 1; Fake.of_Z 0].

Definition hit (n : Z) (score : Z) (payload : option dict) : ScoredPoint :=
  mkScoredPoint (VInt n) (Fake.of_Z score) payload.

(** A store that returns three hits whatever the limit, not in score
    order. *)
Definition sloppy : Answers :=
  mkAnswers
    (Returned (mkEmbeddingResponse [mkEmbedding unit_vector]))
    (Returned (mkCollectionsResponse []))
    (Returned tt) (Returned tt)
    (Returned [hit 1 2 (Some [(py "text", VStr (py "two"))]);
               hit 2 5 (Some [(py "text", VStr (py "five"))]);
               hit 3 3 (Some [(py "text", VStr (py "three"))])])
    (mkUUID (py "11111111-1111-4111-8111-111111111111")).

(** A store whose second hit has a payload without ["text"]. *)
Definition ragged : Answers :=
  mkAnswers
    (Returned (mkEmbeddingResponse [mkEmbedding unit_vector]))
    (Returned (mkCollectionsResponse []))
    (Returned tt) (Returned tt)
    (Returned [hit 1 5 (Some [(py "text", VStr (py "five"))]);
               hit 2 3 (Some [(py "title", VStr (py "three"))]);
               hit 3 2 (Some [(py "text", VStr (py "two"))])])
    (mkUUID (py "11111111-1111-4111-8111-111111111111")).

(** A provider that answers with a vector of two components. *)
Definition short_vector : Answers :=
  mkAnswers
    (Returned (mkEmbeddingResponse
                 [mkEmbedding unit_vector; mkEmbedding [Fake.of_Z 7]]))
    (Returned (mkCollectionsResponse []))
    (Returned tt) (Returned tt) (Returned [])
    (mkUUID (py "11111111-1111-4111-8111-111111111111")).

End Stub.

(** ** The generator script: the top level of [create_rag.py]

    The script talks to the operating system only: it makes a directory,
    writes two files and prints five lines.  It is embedded as a program
    over those calls, each of which returns or raises. *)

Module Script.

Definition handle : Type := N.

Inductive Cmd : Type :=
| os_makedirs (path : str) (exist_ok : bool)
| open_w (path : str)
| f_write (f : handle) (s : str)
| f_close (f : handle)
| print_ (s : str).

(** What a call returns when it returns: [open] a file object,
    [f.write] the number of characters written. *)
Definition Reply (c : Cmd) : Type :=
  match c with
  | open_w _ => handle
  | f_write _ _ => Z
  | _ => unit
  end.

Inductive Prog (A : Type) : Type :=
| Done (a : A)
| Fail (e : exn)
| Step (c : Cmd) (k : outcome (Reply c) -> Prog A).
Arguments Done {A} a.
Arguments Fail {A} e.
Arguments Step {A} c k.

Fixpoint bind {A B} (p : Prog A) (f : A -> Prog B) : Prog B :=
  match p with
  | Done a => f a
  | Fail e => Fail e
  | Step c k => Step c (fun r => bind (k r) f)
  end.

(** A statement, then the rest of the script. *)
Definition seq {A} (p : Prog unit) (q : Prog A) : Prog A :=
  bind p (fun _ => q).

Definition call (c : Cmd) : Prog (Reply c) :=
  Step c (fun r =>
            match r with
            | Returned x => Done x
            | Raised e => Fail e
            end).

(** A call whose value is dropped. *)
Definition exec (c : Cmd) : Prog unit :=
  bind (call c) (fun _ => Done tt).

(** [try: p  finally: q].  [q] runs however [p] ends; an exception of
    [q] replaces the outcome of [p]. *)
Fixpoint finally {A} (p : Prog A) (q : Prog unit) : Prog A :=
  match p with
  | Done a => bind q (fun _ => Done a)
  | Fail e => bind q (fun _ => Fail e)
  | Step c k => Step c (fun r => finally (k r) q)
  end.

(** [with open(path, "w") as f: body] *)
Definition with_open_w (path : str) (body : handle -> Prog unit) : Prog unit :=
  bind (call (open_w path)) (fun f => finally (body f) (exec (f_close f))).

(** [with open(path, "w") as f: f.write(text)] *)
Definition write_file (path text : str) : Prog unit :=
  with_open_w path (fun f => exec (f_write f text)).

(** A literal of the script in which ['] stands for the double quote. *)
Definition quoted (s : string) : str :=
  List.map (fun c => if N.eqb c 39 then 34%N else c) (py s).

(** Lines, each ended by a newline. *)
Definition unlines (ls : list str) : str :=
  List.concat (List.map (fun l => l ++ [10%N]) ls).

(** ["\n".join(ls)] *)
Fixpoint join_lines (ls : list str) : str :=
  match ls with
  | [] => []
  | [l] => l
  | l :: ls' => l ++ [10%N] ++ join_lines ls'
  end.

Definition rag_code : str :=
  unlines (List.map quoted [
    "from fastapi import FastAPI, HTTPException";
    "from qdrant_client import QdrantClient";
    "from qdrant_client.models import Distance, VectorParams, PointStruct";
    "import openai";
    "import os";
    "from typing import List";
    "import uuid";
    "";
    "app = FastAPI()";
    "client = QdrantClient(host='qdrant', port=6333)";
    "openai.api_key = os.getenv('OPENAI_API_KEY')";
    "COLLECTION_NAME = 'ai_docs_2026'";
    "";
    "@app.on_event('startup')";
    "async def startup_event():";
    "    try:";
    "        collections = client.get_collections()";
    "        if COLLECTION_NAME not in [c.name for c in collections.collections]:";
    "            client.create_collection(";
    "                collection_name=COLLECTION_NAME,";
    "                vectors_config=VectorParams(size=1536, distance=Distance.COSINE)";
    "            )";
    "            print('Created collection')";
    "        else:";
    "            print('Collection exists')";
    "    except Exception as e:";
    "        print(f'Error: {e}')";
    "";
    "async def get_embedding(text: str) -> List[float]:";
    "    try:";
    "        response = await openai.Embedding.acreate(";
    "            model='text-embedding-3-small',";
    "            input=text";
    "        )";
    "        return response.data[0].embedding";
    "    except Exception as e:";
    "        raise HTTPException(status_code=500, detail=f'Embedding failed')";
    "";
    "@app.get('/')";
    "async def root():";
    "    return {'system': 'AI Core 2026 RAG', 'status': 'ready'}";
    "";
    "@app.get('/health')";
    "async def health():";
    "    return {'status': 'healthy', 'services': 'ok'}";
    "";
    "@app.post('/add_document')";
    "async def add_document(text: str):";
    "    if not text:";
    "        raise HTTPException(status_code=400, detail='Text required')";
    "    embedding = await get_embedding(text)";
    "    doc_id = str(uuid.uuid4())";
    "    point = PointStruct(";
    "        id=doc_id,";
    "        vector=embedding,";
    "        payload={'text': text}";
    "    )";
    "    client.upsert(collection_name=COLLECTION_NAME, points=[point])";
    "    return {'status': 'added', 'id': doc_id}";
    "";
    "@app.get('/search')";
    "async def search(query: str, limit: int = 3):";
    "    if not query:";
    "        raise HTTPException(status_code=400, detail='Query required')";
    "    query_embedding = await get_embedding(query)";
    "    results = client.search(";
    "        collection_name=COLLECTION_NAME,";
    "        query_vector=query_embedding,";
    "        limit=limit";
    "    )";
    "    return {";
    "        'query': query,";
    "        'results': [";
    "            {'id': hit.id, 'score': hit.score, 'text': hit.payload['text'][:100]}";
    "            for hit in results";
    "        ]";
    "    }";
    "";
    "@app.get('/embed')";
    "async def embed(text: str = 'Hello'):";
    "    embedding = await get_embedding(text)";
    "    return {";
    "        'text': text,";
    "        'dimensions': len(embedding),";
    "        'sample': embedding[:3]";
    "    }" ]%string).

Definition requirements : str :=
  join_lines (List.map py [
    "fastapi==0.104.0";
    "uvicorn[standard]==0.24.0";
    "qdrant-client==1.6.0";
    "openai==1.3.0";
    "numpy==1.24.0" ]%string).

Definition SERVER_PATH : str := py "src/api/server.py".
Definition REQUIREMENTS_PATH : str := py "requirements.txt".

(** The printed lines; the first three begin with the characters the
    source file holds there (U+00E2 U+0153 U+2026, and after a newline
    U+00F0 U+0178 U+201D U+00A8). *)
Definition created_server : str :=
  [226; 339; 8230]%N ++ py " Created src/api/server.py".
Definition created_requirements : str :=
  [226; 339; 8230]%N ++ py " Created requirements.txt".
Definition now_run : str :=
  [10; 240; 376; 8221; 168]%N ++ py " Now run:".

(** The script, top to bottom. *)
Definition create_rag : Prog unit :=
  seq (exec (os_makedirs (py "src/api") true))
 (seq (write_file SERVER_PATH rag_code)
 (seq (exec (print_ created_server))
 (seq (write_file REQUIREMENTS_PATH requirements)
 (seq (exec (print_ created_requirements))
 (seq (exec (print_ now_run))
 (seq (exec (print_ (py "docker compose build --no-cache")))
      (exec (print_ (py "docker compose up -d"))))))))).

(** One call and what it answered. *)
Record Event : Type := mkEvent
  { cmd : Cmd; reply : outcome (Reply cmd) }.

Definition succeeded (ev : Event) : bool :=
  match reply ev with
  | Returned _ => true
  | Raised _ => false
  end.

(** The file object an event opened, if it is a successful [open]. *)
Definition opened (ev : Event) : list handle :=
  match ev with
  | mkEvent c r =>
      match c as c0 return outcome (Reply c0) -> list handle with
      | open_w _ => fun r0 =>
          match r0 with
          | Returned f => [f]
          | Raised _ => []
          end
      | _ => fun _ => []
      end r
  end.

(** The file object an event asked to close. *)
Definition closed (ev : Event) : list handle :=
  match cmd ev with
  | f_close f => [f]
  | _ => []
  end.

(** The path an event asked to open. *)
Definition opened_path (ev : Event) : list str :=
  match cmd ev with
  | open_w p => [p]
  | _ => []
  end.

Section Run.

Variable OS : Type.
Variable os : forall c : Cmd, OS -> outcome (Reply c) * OS.

(** Outcome, final state of the system, and the events in order. *)
Fixpoint run {A} (p : Prog A) (s : OS) : outcome A * OS * list Event :=
  match p with
  | Done a => (Returned a, s, [])
  | Fail e => (Raised e, s, [])
  | Step c k =>
      let '(r, s1) := os c s in
      let '(o, s2, evs) := run (k r) s1 in
      (o, s2, @mkEvent c r :: evs)
  end.

Definition result {A} (p : Prog A) (s : OS) : outcome A :=
  fst (fst (run p s)).

Definition after {A} (p : Prog A) (s : OS) : OS :=
  snd (fst (run p s)).

Definition events {A} (p : Prog A) (s : OS) : list Event :=
  snd (run p s).

End Run.

(** The laws of a file system, for an arbitrary operating system:
    [file s p] is the content of the file at [p] in state [s], and
    [target s f] the path the open file object [f] writes to. *)
Record disk_laws (OS : Type)
    (os : forall c : Cmd, OS -> outcome (Reply c) * OS)
    (file : OS -> str -> option str)
    (target : OS -> handle -> option str) : Prop := mkDiskLaws
  { open_truncates :
      forall s p f s1,
        os (open_w p) s = (Returned f, s1) ->
        file s1 p = Some [] /\ target s1 f = Some p
        /\ (forall q, q <> p -> file s1 q = file s q);
    write_appends :
      forall s f t n s1 p old,
        os (f_write f t) s = (Returned n, s1) ->
        target s f = Some p ->
        file s p = Some old ->
        file s1 p = Some (old ++ t)
        /\ (forall q, q <> p -> file s1 q = file s q);
    close_keeps :
      forall s f o s1,
        os (f_close f) s = (o, s1) -> forall q, file s1 q = file s q;
    makedirs_keeps :
      forall s p b o s1,
        os (os_makedirs p b) s = (o, s1) -> forall q, file s1 q = file s q;
    print_keeps :
      forall s l o s1,
        os (print_ l) s = (o, s1) -> forall q, file s1 q = file s q }.

(** An in-memory disk: files, directories, open file objects and the
    lines printed.  [open] for writing needs the parent directory;
    [makedirs] creates the directory and its ancestors. *)
Module Disk.

Record State : Type := mkState
  { files : list (str * str);
    dirs : list str;
    open_files : list (handle * str);
    next_handle : handle;
    printed : list str }.

Fixpoint lookup (fs : list (str * str)) (p : str) : option str :=
  match fs with
  | [] => None
  | (q, t) :: fs' => if str_eqb q p then Some t else lookup fs' p
  end.

Definition store (fs : list (str * str)) (p t : str) : list (str * str) :=
  (p, t) :: filter (fun e => negb (str_eqb (fst e) p)) fs.

Fixpoint target_of (hs : list (handle * str)) (f : handle) : option str :=
  match hs with
  | [] => None
  | (g, p) :: hs' => if N.eqb g f then Some p else target_of hs' f
  end.

(** The prefixes of a path that end just before a [/]. *)
Fixpoint ancestors (seen rest : str) : list str :=
  match rest with
  | [] => []
  | c :: rest' =>
      if N.eqb c 47 then seen :: ancestors (seen ++ [c]) rest'
      else ancestors (seen ++ [c]) rest'
  end.

(** [os.path.dirname] *)
Definition dirname (p : str) : str :=
  last (ancestors [] p) [].

Definition file (s : State) (p : str) : option str := lookup (files s) p.

Definition target (s : State) (f : handle) : option str :=
  target_of (open_files s) f.

Definition file_exists : exn :=
  PyExc (py "FileExistsError") (py "File exists").
Definition no_such_directory : exn :=
  PyExc (py "FileNotFoundError") (py "No such file or directory").
Definition closed_file : exn :=
  PyExc (py "ValueError") (py "I/O operation on closed file.").

Definition is_file (s : State) (p : str) : bool :=
  match file s p with Some _ => true | None => false end.

Definition os (c : Cmd) : State -> outcome (Reply c) * State :=
  match c as c0 return State -> outcome (Reply c0) * State with
  | os_makedirs p exist_ok => fun s =>
      if existsb (is_file s) (p :: ancestors [] p) then (Raised file_exists, s)
      else if contains (dirs s) p && negb exist_ok then (Raised file_exists, s)
      else (Returned tt,
            mkState (files s) (p :: ancestors [] p ++ dirs s) (open_files s)
              (next_handle s) (printed s))
  | open_w p => fun s =>
      if negb (str_eqb (dirname p) []) && negb (contains (dirs s) (dirname p))
      then (Raised no_such_directory, s)
      else (Returned (next_handle s),
            mkState (store (files s) p []) (dirs s)
              ((next_handle s, p) :: open_files s)
              (N.succ (next_handle s)) (printed s))
  | f_write f t => fun s =>
      match target s f with
      | Some p =>
          match file s p with
          | Some old =>
              (Returned (len t),
               mkState (store (files s) p (old ++ t)) (dirs s) (open_files s)
                 (next_handle s) (printed s))
          | None => (Raised no_such_directory, s)
          end
      | None => (Raised closed_file, s)
      end
  | f_close f => fun s =>
      (Returned tt,
       mkState (files s) (dirs s)
         (filter (fun e => negb (N.eqb (fst e) f)) (open_files s))
         (next_handle s) (printed s))
  | print_ l => fun s =>
      (Returned tt,
       mkState (files s) (dirs s) (open_files s) (next_handle s)
         (printed s ++ [l]))
  end.

(** Nothing on the disk. *)
Definition blank : State := mkState [] [] [] 0%N [].

(** A checkout of the repository: the committed server is in place, with
    a README beside it. *)
Definition checkout : State :=
  mkState [(SERVER_PATH, py "app = FastAPI()"); (py "README.md", py "# RAG")]
    [py "src/api"; py "src"] [] 0%N [].

(** A disk on which [src] is a regular file. *)
Definition blocked : State :=
  mkState [(py "src", py "not a directory")] [] [] 0%N [].

End Disk.

End Script.

(** ** General facts about running programs *)

Section RunFacts.

Variable World : Type.
Variable world : forall c : Call, World -> Ans c * World.

Lemma run_bind A B (p : Prog A) (f : A -> Prog B) (w : World) :
  run world (bind p f) w =
  match run world p w with
  | (Returned a, w1, cs) =>
      let '(o, w2, cs') := run world (f a) w1 in (o, w2, cs ++ cs')
  | (Raised e, w1, cs) => (Raised e, w1, cs)
  end.
Proof.
  revert w. induction p as [a | e | c k IH]; intros w; simpl.
  - destruct (run world (f a) w) as [[o w2] cs']. reflexivity.
  - reflexivity.
  - destruct (world c w) as [a w1]. rewrite IH.
    destruct (run world (k a) w1) as [[[x | e] w2] cs]; [ | reflexivity].
    destruct (run world (f x) w2) as [[o w3] cs']. reflexivity.
Qed.

Lemma run_try_except A (p : Prog A) (h : exn -> Prog A) (w : World) :
  run world (try_except p h) w =
  match run world p w with
  | (Returned a, w1, cs) => (Returned a, w1, cs)
  | (Raised e, w1, cs) =>
      let '(o, w2, cs') := run world (h e) w1 in (o, w2, cs ++ cs')
  end.
Proof.
  revert w. induction p as [a | e | c k IH]; intros w; simpl.
  - reflexivity.
  - destruct (run world (h e) w) as [[o w2] cs']. reflexivity.
  - destruct (world c w) as [a w1]. rewrite IH.
    destruct (run world (k a) w1) as [[[x | e] w2] cs]; [reflexivity | ].
    destruct (run world (h e) w2) as [[o w3] cs']. reflexivity.
Qed.

(** [get_embedding] makes exactly one call, whatever happens. *)
Lemma get_embedding_returns text w r item rest w1 :
  world (Embedding_acreate MODEL text) w = (Returned r, w1) ->
  data r = item :: rest ->
  run world (Generated.get_embedding text) w =
  (Returned (embedding item), w1, [Embedding_acreate MODEL text]).
Proof.
  intros Hcall Hdata. unfold Generated.get_embedding. simpl.
  fold MODEL. rewrite Hcall. simpl. rewrite Hdata. reflexivity.
Qed.

Lemma get_embedding_raises text w o w1 :
  world (Embedding_acreate MODEL text) w = (o, w1) ->
  embedding_failed o = true ->
  run world (Generated.get_embedding text) w =
  (Raised (HTTPException 500 (py "Embedding failed")), w1,
   [Embedding_acreate MODEL text]).
Proof.
  intros Hcall Hfail. unfold Generated.get_embedding. simpl.
  fold MODEL. rewrite Hcall.
  destruct o as [r | e]; simpl in *.
  - destruct (data r); [reflexivity | discriminate].
  - reflexivity.
Qed.

Lemma get_embedding_calls text w :
  calls world (Generated.get_embedding text) w = [Embedding_acreate MODEL text].
Proof.
  unfold calls, Generated.get_embedding. simpl. fold MODEL.
  destruct (world (Embedding_acreate MODEL text) w) as [[r | e] w1]; simpl.
  - destruct (data r); reflexivity.
  - reflexivity.
Qed.

(** The only creation start-up ever asks for is that of the service's
    collection, with 1536 dimensions and the cosine metric. *)
Lemma startup_creates_only_its_collection w c :
  In c (calls world Generated.startup_event w) ->
  is_create c = true ->
  c = create_collection Generated.COLLECTION_NAME (mkVectorParams 1536 COSINE).
Proof.
  unfold calls, Generated.startup_event. simpl.
  destruct (world get_collections w) as [[cr | e] w1]; simpl.
  - destruct (contains _ _); simpl.
    + destruct (world (print _) w1) as [u w2]. simpl.
      intros [H | [H | []]] Hc; subst c; discriminate.
    + destruct (world (create_collection _ _) w1) as [[u | e] w2]; simpl;
        destruct (world (print _) w2) as [u' w3]; simpl;
        intros [H | [H | [H | []]]] Hc; subst c;
        try discriminate; reflexivity.
  - destruct (world (print _) w1) as [u w2]. simpl.
    intros [H | [H | []]] Hc; subst c; discriminate.
Qed.

(** The element expression of [search]'s comprehension makes no call:
    it yields a result that carries its hit, or raises because the hit
    has no text to slice. *)
Lemma result_of_hit_cases hit :
  (exists item, Generated.result_of_hit hit = Ret item /\ carries hit item)
  \/ (exists e, Generated.result_of_hit hit = Raise e
                /\ has_stored_text hit = false).
Proof.
  unfold Generated.result_of_hit, carries, has_stored_text, stored_text, subscript.
  destruct (hit_payload hit) as [d | ];
    [ | right; eexists; split; reflexivity].
  destruct (dict_get d (py "text")) as [[ | z | f | t | l | d'] | ] eqn:Hd;
    try (right; eexists; split; reflexivity).
  - left. eexists. split; [reflexivity | ].
    split; [reflexivity | ]. split; [reflexivity | ].
    exists d. split; [reflexivity | ].
    left. exists t. split; [exact Hd | reflexivity].
  - left. eexists. split; [reflexivity | ].
    split; [reflexivity | ]. split; [reflexivity | ].
    exists d. split; [reflexivity | ].
    right. exists l. split; [exact Hd | reflexivity].
Qed.

Lemma scores_of_cons item items f :
  field item (py "score") = Some (VFloat f) ->
  scores_of (item :: items) = f :: scores_of items.
Proof.
  intros H. unfold scores_of. simpl flat_map. rewrite H. reflexivity.
Qed.

(** The comprehension of [search]: no call is made; if it returns, it
    returns one result per hit, in order, each carrying its hit; and it
    returns when every hit has a stored text. *)
Lemma comprehension_run hits w :
  exists o,
    run world (comprehension Generated.result_of_hit hits) w = (o, w, [])
    /\ (forall items, o = Returned items ->
          Forall2 carries hits items
          /\ scores_of items = List.map hit_score hits)
    /\ (forallb has_stored_text hits = true -> exists items, o = Returned items).
Proof.
  induction hits as [ | h hits IH].
  - exists (Returned []). split; [reflexivity | ]. split.
    + intros items H. inversion H; subst. split; [constructor | reflexivity].
    + intros _. eexists. reflexivity.
  - destruct IH as [o [Hrun [Hok Hall]]].
    simpl comprehension.
    destruct (result_of_hit_cases h) as [[item [Hr Hc]] | [e [Hr Hf]]];
      rewrite Hr; simpl bind.
    + rewrite run_bind, Hrun. destruct o as [items | e]; simpl.
      * eexists. split; [reflexivity | ]. split.
        -- intros items' H. inversion H; subst.
           destruct (Hok items eq_refl) as [Hf2 Hs]. split.
           ++ constructor; assumption.
           ++ destruct Hc as [_ [Hscore _]].
              rewrite (@scores_of_cons item items _ Hscore), Hs. reflexivity.
        -- intros _. eexists. reflexivity.
      * eexists. split; [reflexivity | ]. split.
        -- intros items H. discriminate.
        -- intros H. apply andb_true_iff in H. destruct H as [_ H].
           destruct (Hall H) as [items Hi]. discriminate.
    + exists (Raised e). split; [reflexivity | ]. split.
      * intros items H. discriminate.
      * simpl forallb. rewrite Hf. discriminate.
Qed.

End RunFacts.

(** ** Validation of empty input *)

Section Handlers.

Variable World : Type.
Variable world : forall c : Call, World -> Ans c * World.

(** C1.  On the empty string, [add_document] and [search] (for every
    limit) raise the 400 validation failure and make no collaborator
    call at all: no upsert, no embedding call, no store call; the
    outside world is left as it was. *)
Theorem C1_empty_input_is_rejected_before_any_call (w : World) (limit : Z) :
  run world (Generated.add_document (py "")) w =
    (Raised (HTTPException 400 (py "Text required")), w, [])
  /\ fst (http_response (result world (Generated.add_document (py "")) w)) = 400
  /\ filter is_upsert (calls world (Generated.add_document (py "")) w) = []
  /\ run world (Generated.search (py "") limit) w =
       (Raised (HTTPException 400 (py "Query required")), w, [])
  /\ fst (http_response (result world (Generated.search (py "") limit) w)) = 400
  /\ filter is_embedding_call (calls world (Generated.search (py "") limit) w) = []
  /\ filter is_store_call (calls world (Generated.search (py "") limit) w) = [].
Proof. repeat split. Qed.

(** ** Failure of the embedding provider *)

(** C8.  When the provider call does not yield an embedding (it raises
    any exception [e], or answers without an item), every handler that
    reaches it answers 500 with the constant detail ["Embedding failed"]
    and makes no further call: [embed] on any text, [add_document] and
    [search] on any text that passes their validation.  The response is
    the same for every [e], so nothing of the provider's error reaches
    the client. *)
Theorem C8_embedding_failure_is_a_generic_500
    (text : str) (limit : Z) (w : World)
    (o : outcome EmbeddingResponse) (w1 : World)
    (Hcall : world (Embedding_acreate MODEL text) w = (o, w1))
    (Hfail : embedding_failed o = true) :
  let generic := (500, VDict [(py "detail", VStr (py "Embedding failed"))]) in
  run world (Generated.get_embedding text) w =
    (Raised (HTTPException 500 (py "Embedding failed")), w1,
     [Embedding_acreate MODEL text])
  /\ http_response (result world (Generated.embed text) w) = generic
  /\ calls world (Generated.embed text) w = [Embedding_acreate MODEL text]
  /\ (truthy text = true ->
      http_response (result world (Generated.add_document text) w) = generic
      /\ http_response (result world (Generated.search text limit) w) = generic
      /\ calls world (Generated.add_document text) w =
           [Embedding_acreate MODEL text]
      /\ calls world (Generated.search text limit) w =
           [Embedding_acreate MODEL text]).
Proof.
  pose proof (@get_embedding_raises _ world text w o w1 Hcall Hfail) as Hrun.
  split; [exact Hrun | ].
  assert (Hembed : run world (Generated.embed text) w =
                   (Raised (HTTPException 500 (py "Embedding failed")), w1,
                    [Embedding_acreate MODEL text])).
  { unfold Generated.embed. rewrite run_bind, Hrun. reflexivity. }
  unfold result, calls. rewrite Hembed.
  split; [reflexivity | ]. split; [reflexivity | ].
  intros Hnonempty.
  unfold Generated.add_document, Generated.search.
  rewrite Hnonempty. simpl negb. cbv iota.
  rewrite !run_bind, Hrun. repeat split.
Qed.

(** ** The diagnostic endpoint *)

(** C9, the code at the failing input.  [embed] does not look at its
    argument before embedding it: on the empty string it calls the
    provider with the empty string, in every outside world. *)
Theorem C9_embed_passes_the_empty_string_to_the_provider (w : World) :
  calls world (Generated.embed (py "")) w = [Embedding_acreate MODEL (py "")]
  /\ In (Embedding_acreate MODEL (py ""))
        (calls world (Generated.embed (py "")) w).
Proof.
  assert (H : calls world (Generated.embed (py "")) w =
              [Embedding_acreate MODEL (py "")]).
  { unfold calls, Generated.embed. rewrite run_bind.
    pose proof (@get_embedding_calls _ world (py "") w) as Hc.
    unfold calls in Hc.
    destruct (run world (Generated.get_embedding (py "")) w)
      as [[[v | e] w1] cs]; simpl in *; subst; reflexivity. }
  split; [exact H | rewrite H; left; reflexivity].
Qed.

(** The two sibling handlers check their argument first, so the text
    they hand to the provider is never the empty string. *)
Lemma validated_handlers_embed_only_non_empty_text
    (text : str) (limit : Z) (w : World) (model : str) :
  ~ In (Embedding_acreate model (py ""))
       (calls world (Generated.add_document text) w)
  /\ ~ In (Embedding_acreate model (py ""))
         (calls world (Generated.search text limit) w).
Proof.
  destruct text as [ | c text]; [split; intros [] | ].
  pose proof (@get_embedding_calls _ world (c :: text) w) as Hc.
  unfold calls in *.
  unfold Generated.add_document, Generated.search. simpl negb. cbv iota.
  rewrite !run_bind.
  destruct (run world (Generated.get_embedding (c :: text)) w)
    as [[[v | e] w1] cs]; simpl in Hc; subst cs.
  - split.
    + simpl. destruct (world uuid4 w1) as [u w2]. simpl.
      destruct (world (upsert _ _) w2) as [[[] | e] w3]; simpl;
        intros [H | [H | [H | []]]]; discriminate.
    + simpl.
      destruct (world (client_search _ _ _) w1) as [[hits | e] w2]; simpl.
      * rewrite run_bind.
        destruct (@comprehension_run _ world hits w2) as [o [Ho _]].
        rewrite Ho.
        destruct o; simpl; intros [H | [H | []]]; discriminate.
      * intros [H | [H | []]]; discriminate.
  - split; simpl; intros [H | []]; discriminate.
Qed.


End Handlers.

(** ** Insertion *)

Section Insertion.

Variable World : Type.
Variable world : forall c : Call, World -> Ans c * World.

(** C5.  For a non-empty text whose embedding the provider returns,
    [add_document] asks [uuid4] for an identifier after embedding (the
    handler has no identifier parameter), upserts exactly one point
    made of that identifier, the embedding and the payload
    [{"text": text}] into the service's collection, and returns
    [{"status": "added", "id": id}] with the same identifier. *)
Theorem C5_add_document_upserts_under_a_generated_id
    (text : str) (w : World)
    (r : EmbeddingResponse) (item : Embedding) (rest : list Embedding)
    (w1 : World) (u : UUID) (w2 w3 : World)
    (Hnonempty : truthy text = true)
    (Hcall : world (Embedding_acreate MODEL text) w = (Returned r, w1))
    (Hdata : data r = item :: rest)
    (Huuid : world uuid4 w1 = (u, w2))
    (Hupsert :
       world (upsert Generated.COLLECTION_NAME
                [mkPointStruct (VStr (uuid_str u)) (embedding item)
                   [(py "text", VStr text)]]) w2 = (Returned tt, w3)) :
  run world (Generated.add_document text) w =
    (Returned (VDict [(py "status", VStr (py "added"));
                      (py "id", VStr (uuid_str u))]),
     w3,
     [Embedding_acreate MODEL text;
      uuid4;
      upsert Generated.COLLECTION_NAME
        [mkPointStruct (VStr (uuid_str u)) (embedding item)
           [(py "text", VStr text)]]]).
Proof.
  pose proof (@get_embedding_returns _ world text w r item rest w1 Hcall Hdata)
    as Hrun.
  unfold Generated.add_document. rewrite Hnonempty. simpl negb. cbv iota.
  rewrite run_bind, Hrun. simpl. rewrite Huuid. simpl.
  rewrite Hupsert. reflexivity.
Qed.

End Insertion.

(** ** Search *)

Section Search.

Variable World : Type.
Variable world : forall c : Call, World -> Ans c * World.

(** The run of [search] once both collaborators have answered: two
    calls, and the outcome of the comprehension over the hits. *)
Lemma search_run query limit w r item rest w1 hits w2 :
  truthy query = true ->
  world (Embedding_acreate MODEL query) w = (Returned r, w1) ->
  data r = item :: rest ->
  world (client_search Generated.COLLECTION_NAME (embedding item) limit) w1 =
    (Returned hits, w2) ->
  exists o,
    run world (Generated.search query limit) w =
      (match o with
       | Returned items =>
           Returned (VDict [(py "query", VStr query);
                            (py "results", VList items)])
       | Raised e => Raised e
       end,
       w2,
       [Embedding_acreate MODEL query;
        client_search Generated.COLLECTION_NAME (embedding item) limit])
    /\ (forall items, o = Returned items ->
          Forall2 carries hits items
          /\ scores_of items = List.map hit_score hits)
    /\ (forallb has_stored_text hits = true -> exists items, o = Returned items).
Proof.
  intros Hq Hcall Hdata Hsearch.
  pose proof (@get_embedding_returns _ world query w r item rest w1 Hcall Hdata)
    as Hrun.
  destruct (@comprehension_run _ world hits w2) as [o [Ho [Hok Hall]]].
  exists o. split; [ | split; assumption].
  unfold Generated.search. rewrite Hq. simpl negb. cbv iota.
  rewrite run_bind, Hrun. simpl. rewrite Hsearch. simpl.
  rewrite run_bind, Ho. destruct o; reflexivity.
Qed.

(** A result that carries a hit with a stored string has the first 100
    characters of that string as its text. *)
Lemma carries_stored hit item t :
  carries hit item ->
  stored_text hit = Some t ->
  field item (py "text") = Some (VStr (firstn 100 t)).
Proof.
  intros [_ [_ [d [Hp Hcase]]]] Hst.
  unfold stored_text in Hst. rewrite Hp in Hst.
  destruct Hcase as [[t' [Hd Hf]] | [l [Hd Hf]]]; rewrite Hd in Hst.
  - inversion Hst; subst. exact Hf.
  - discriminate.
Qed.


(** C3.  Under the same answers, whenever [search] returns, the text of
    the result for a hit with stored text [t] is the first 100
    characters of [t]: a prefix of [t] of length [min 100 (len t)], and
    [t] itself, unchanged, when [t] is shorter than 100 characters.  And
    [search] does return when every hit has a stored text, however
    short. *)
Theorem C3_snippet_is_the_first_100_characters
    (query : str) (k : Z) (w : World)
    (r : EmbeddingResponse) (item : Embedding) (rest : list Embedding)
    (w1 : World) (hits : list ScoredPoint) (w2 : World)
    (Hnonempty : truthy query = true)
    (Hcall : world (Embedding_acreate MODEL query) w = (Returned r, w1))
    (Hdata : data r = item :: rest)
    (Hsearch :
       world (client_search Generated.COLLECTION_NAME (embedding item) k) w1 =
         (Returned hits, w2)) :
  (forall v,
      result world (Generated.search query k) w = Returned v ->
      Forall2
        (fun hit res =>
           forall t,
             stored_text hit = Some t ->
             exists snippet,
               field res (py "text") = Some (VStr snippet)
               /\ snippet = firstn 100 t
               /\ List.length snippet = Nat.min 100 (List.length t)
               /\ (exists tail, t = snippet ++ tail)
               /\ ((List.length t < 100)%nat -> snippet = t))
        hits (results_of v))
  /\ (forallb has_stored_text hits = true ->
      exists v, result world (Generated.search query k) w = Returned v).
Proof.
  destruct (@search_run query k w r item rest w1 hits w2
              Hnonempty Hcall Hdata Hsearch) as [o [Hrun [Hok Hall]]].
  unfold result. rewrite Hrun. simpl fst. split.
  - intros v Hv. destruct o as [items | e]; [ | discriminate].
    inversion Hv; subst v. destruct (Hok items eq_refl) as [Hcarry _].
    change (results_of _) with items.
    eapply Forall2_impl; [ | exact Hcarry].
    intros hit res Hhit t Ht. exists (firstn 100 t).
    split; [exact (@carries_stored hit res t Hhit Ht) | ].
    split; [reflexivity | ]. split; [apply length_firstn | ]. split.
    + exists (skipn 100 t). symmetry. apply firstn_skipn.
    + intros Hshort. apply firstn_all2. lia.
  - intros Htexts. destruct (Hall Htexts) as [items Hi]. subst o.
    eexists. reflexivity.
Qed.

End Search.

(** ** Start-up *)

Section Startup.

Variable World : Type.
Variable world : forall c : Call, World -> Ans c * World.

Local Abbreviation NAME := Generated.COLLECTION_NAME.
Local Abbreviation startup := Generated.startup_event.

(** Whatever the collaborators do, start-up returns. *)
Lemma startup_never_raises w : result world startup w = Returned tt.
Proof.
  unfold result, Generated.startup_event. simpl.
  destruct (world get_collections w) as [[r | e] w1]; simpl.
  - destruct (contains _ _); simpl.
    + destruct (world (print _) w1) as [[] w2]. reflexivity.
    + destruct (world (create_collection _ _) w1) as [[[] | e] w2]; simpl;
        destruct (world (print _) w2) as [[] w3]; reflexivity.
  - destruct (world (print _) w1) as [[] w2]. reflexivity.
Qed.

(** When the listing names the collection, start-up prints and stops. *)
Lemma startup_when_listed w r w1 :
  world get_collections w = (Returned r, w1) ->
  contains (List.map name (collections r)) NAME = true ->
  run world startup w =
    (Returned tt,
     snd (world (print (Literal (py "Collection exists"))) w1),
     [get_collections; print (Literal (py "Collection exists"))]).
Proof.
  intros Hg Hc. unfold Generated.startup_event. simpl.
  rewrite Hg. simpl. rewrite Hc. simpl.
  destruct (world (print _) w1) as [[] w2]. reflexivity.
Qed.

Section WithRegistry.

Variable copies : World -> str -> nat.
Hypothesis laws : registry_laws world copies.

(** One start-up: it returns; it leaves the number of collections of
    the service's name as it was, or takes it from 0 to 1; and it
    asks for no creation when the collection is there. *)
Lemma startup_step w :
  result world startup w = Returned tt
  /\ (copies (after world startup w) NAME = copies w NAME
      \/ (copies w NAME = 0 /\ copies (after world startup w) NAME = 1))%nat
  /\ ((0 < copies w NAME)%nat ->
      filter is_create (calls world startup w) = []
      /\ copies (after world startup w) NAME = copies w NAME).
Proof.
  split; [apply startup_never_raises | ].
  unfold after, calls, Generated.startup_event. simpl.
  destruct (world get_collections w) as [[r | e] w1] eqn:Hg; simpl.
  - pose proof (listing_reads laws _ NAME Hg) as Hread.
    pose proof (listing_truthful laws _ NAME Hg) as Htruth.
    destruct (contains _ NAME) eqn:Hc; simpl.
    + destruct (world (print _) w1) as [[] w2] eqn:Hp. simpl.
      pose proof (printing_reads laws _ NAME Hp) as Hprint.
      split; [left | intros _; split; [reflexivity | ]]; congruence.
    + assert (Hzero : copies w NAME = 0%nat).
      { destruct (copies w NAME) eqn:E; [reflexivity | ].
        assert (Hpos : (0 < S n)%nat) by lia.
        apply Htruth in Hpos. discriminate. }
      destruct (world (create_collection _ _) w1) as [[[] | e] w2] eqn:Hcr;
        simpl; destruct (world (print _) w2) as [[] w3] eqn:Hp; simpl;
        pose proof (printing_reads laws _ NAME Hp) as Hprint.
      * pose proof (creation_adds laws _ Hcr) as Hadd.
        split; [right; split; [exact Hzero | ] | intros Hpos; lia].
        rewrite Hprint, Hadd, Hread, Hzero. reflexivity.
      * pose proof (creation_refused laws _ Hcr) as Hno.
        split; [left | intros Hpos; lia].
        rewrite Hprint, Hno, Hread. reflexivity.
  - pose proof (listing_reads laws _ NAME Hg) as Hread.
    destruct (world (print _) w1) as [[] w2] eqn:Hp. simpl.
    pose proof (printing_reads laws _ NAME Hp) as Hprint.
    split; [left | intros _; split; [reflexivity | ]]; congruence.
Qed.

(** C6.  Start-up run twice in a row, against any store that obeys the
    registry laws: neither run raises; a run asks for no creation when
    the collection is there; the second run asks for none once the
    first has left the collection there, and leaves the registry as it
    found it; a registry without a duplicate of the service's collection
    stays without one; and the only creation either run can ask for is
    the same: the service's name, 1536 dimensions, the cosine metric. *)
Theorem C6_startup_twice_is_startup_once (w : World) :
  let w1 := after world startup w in
  let w2 := after world startup w1 in
  result world startup w = Returned tt
  /\ result world startup w1 = Returned tt
  /\ ((0 < copies w NAME)%nat -> filter is_create (calls world startup w) = [])
  /\ ((0 < copies w1 NAME)%nat ->
      filter is_create (calls world startup w1) = []
      /\ copies w2 NAME = copies w1 NAME)
  /\ ((copies w NAME = 0)%nat -> (copies w1 NAME = 1)%nat ->
      filter is_create (calls world startup w1) = []
      /\ (copies w2 NAME = 1)%nat)
  /\ ((copies w NAME <= 1)%nat ->
      (copies w1 NAME <= 1)%nat /\ (copies w2 NAME <= 1)%nat)
  /\ (forall c,
        In c (calls world startup w ++ calls world startup w1) ->
        is_create c = true ->
        c = create_collection NAME (mkVectorParams 1536 COSINE)).
Proof.
  intros w1 w2.
  destruct (startup_step w) as [R1 [S1 P1]].
  destruct (startup_step w1) as [R2 [S2 P2]].
  fold w1 in S1, P1. fold w2 in S2, P2.
  split; [exact R1 | ]. split; [exact R2 | ].
  split; [intros Hpos; apply P1; exact Hpos | ].
  split; [exact P2 | ].
  split; [ | split].
  - intros _ Hone. assert (Hpos : (0 < copies w1 NAME)%nat) by lia.
    destruct (P2 Hpos) as [Hno Hsame]. split; [exact Hno | lia].
  - intros Hle. lia.
  - intros c Hin Hc. apply in_app_or in Hin. destruct Hin as [Hin | Hin].
    + exact (@startup_creates_only_its_collection _ world w c Hin Hc).
    + exact (@startup_creates_only_its_collection _ world w1 c Hin Hc).
Qed.

End WithRegistry.

(** C7, as the code has it.  When the listing names the service's
    collection, start-up prints ["Collection exists"] and returns: it
    makes no further call to the store, so it never reads the
    collection's dimension or metric, and it raises nothing, whatever
    those are. *)
Theorem C7_existing_collection_is_accepted_unexamined
    (w : World) (r : CollectionsResponse) (w1 : World)
    (Hlisting : world get_collections w = (Returned r, w1))
    (Hexists : contains (List.map name (collections r)) NAME = true) :
  result world startup w = Returned tt
  /\ calls world startup w =
       [get_collections; print (Literal (py "Collection exists"))]
  /\ filter is_create (calls world startup w) = [].
Proof.
  pose proof (@startup_when_listed w r w1 Hlisting Hexists) as Hrun.
  unfold result, calls. rewrite Hrun. repeat split.
Qed.

End Startup.

(** ** The two servers *)

(** C10.  The committed server registers GET / and GET /health and
    nothing else: no /add_document, /search or /embed.  It is not the
    generated server, which registers those three as well, and the two
    answer differently on the routes they share: the committed GET /
    returns [{"system": "AI Core 2026", "status": "production"}] and its
    GET /health returns [{"status": "healthy"}], with no ["services"]
    field, where the generated ones return
    [{"system": "AI Core 2026 RAG", "status": "ready"}] and
    [{"status": "healthy", "services": "ok"}].  None of the four makes a
    collaborator call. *)
Theorem C10_committed_server_differs_from_the_generated_one :
  paths committed_app = [(py "GET", py "/"); (py "GET", py "/health")]
  /\ (forall r, In r committed_app ->
        path r <> py "/add_document" /\ path r <> py "/search"
        /\ path r <> py "/embed")
  /\ paths generated_app =
       [(py "GET", py "/"); (py "GET", py "/health");
        (py "POST", py "/add_document"); (py "GET", py "/search");
        (py "GET", py "/embed")]
  /\ paths committed_app <> paths generated_app
  /\ (forall (World : Type) (world : forall c : Call, World -> Ans c * World)
             (w : World),
        run world Committed.root w =
          (Returned (VDict [(py "system", VStr (py "AI Core 2026"));
                            (py "status", VStr (py "production"))]), w, [])
        /\ run world Committed.health w =
             (Returned (VDict [(py "status", VStr (py "healthy"))]), w, [])
        /\ run world Generated.root w =
             (Returned (VDict [(py "system", VStr (py "AI Core 2026 RAG"));
                               (py "status", VStr (py "ready"))]), w, [])
        /\ run world Generated.health w =
             (Returned (VDict [(py "status", VStr (py "healthy"));
                               (py "services", VStr (py "ok"))]), w, [])
        /\ result world Committed.root w <> result world Generated.root w
        /\ result world Committed.health w <> result world Generated.health w)
  /\ (forall v, Committed.health = Ret v -> field v (py "services") = None)
  /\ (forall v, Generated.health = Ret v ->
        field v (py "services") = Some (VStr (py "ok"))).
Proof.
  split; [reflexivity | ]. split.
  { intros r [H | [H | []]]; subst r; repeat split; intro E;
      vm_compute in E; discriminate. }
  split; [reflexivity | ]. split.
  { intro E. apply (f_equal (@List.length _)) in E. discriminate. }
  split.
  { intros World world w. repeat split;
      intro E; vm_compute in E; discriminate. }
  split; intros v E; inversion E; subst; reflexivity.
Qed.

(** ** The in-memory world obeys the registry laws *)

Lemma str_eqb_refl (a : str) : str_eqb a a = true.
Proof.
  induction a as [ | x a IH]; simpl; [reflexivity | ].
  rewrite N.eqb_refl. exact IH.
Qed.

Lemma str_eqb_sym (a b : str) : str_eqb a b = str_eqb b a.
Proof.
  revert b. induction a as [ | x a IH]; intros [ | y b]; simpl; try reflexivity.
  rewrite N.eqb_sym, IH. reflexivity.
Qed.

Lemma fake_listing (reg : list (str * VectorParams)) (n : str) :
  contains
    (List.map name (List.map (fun e => mkCollectionDescription (fst e)) reg)) n
  = true
  <-> (0 < List.length (filter (fun e => str_eqb (fst e) n) reg))%nat.
Proof.
  unfold contains. induction reg as [ | [k p] reg IH]; simpl.
  - split; [discriminate | lia].
  - rewrite (str_eqb_sym n k). destruct (str_eqb k n); simpl.
    + split; [lia | reflexivity].
    + exact IH.
Qed.

Lemma fake_obeys_registry_laws : registry_laws Fake.world Fake.holds.
Proof.
  constructor.
  - intros w r w1 n H. simpl in H. inversion H; subst. apply fake_listing.
  - intros w o w1 n H. simpl in H. inversion H; subst. reflexivity.
  - intros w n p w1 H. simpl in H.
    destruct (Fake.has_collection w n) eqn:Hhas; [discriminate | ].
    inversion H; subst. unfold Fake.holds. simpl.
    rewrite filter_app, length_app. simpl. rewrite str_eqb_refl. simpl. lia.
  - intros w n p e w1 H. simpl in H.
    destruct (Fake.has_collection w n); inversion H; subst. reflexivity.
  - intros w l u w1 n H. simpl in H. inversion H; subst. reflexivity.
Qed.

(** ** The theorems at work in the in-memory world *)

Lemma C8_witness_provider_offline :
  Fake.world (Embedding_acreate MODEL (py "hello")) Fake.offline =
    (Raised Fake.provider_error, Fake.offline)
  /\ (let generic := (500, VDict [(py "detail", VStr (py "Embedding failed"))]) in
      run Fake.world (Generated.get_embedding (py "hello")) Fake.offline =
        (Raised (HTTPException 500 (py "Embedding failed")), Fake.offline,
         [Embedding_acreate MODEL (py "hello")])
      /\ http_response (result Fake.world (Generated.embed (py "hello")) Fake.offline)
           = generic
      /\ calls Fake.world (Generated.embed (py "hello")) Fake.offline
           = [Embedding_acreate MODEL (py "hello")]
      /\ (truthy (py "hello") = true ->
          http_response
            (result Fake.world (Generated.add_document (py "hello")) Fake.offline)
            = generic
          /\ http_response
               (result Fake.world (Generated.search (py "hello") 3) Fake.offline)
               = generic
          /\ calls Fake.world (Generated.add_document (py "hello")) Fake.offline
               = [Embedding_acreate MODEL (py "hello")]
          /\ calls Fake.world (Generated.search (py "hello") 3) Fake.offline
               = [Embedding_acreate MODEL (py "hello")])).
Proof.
  split; [reflexivity | ].
  apply (@C8_embedding_failure_is_a_generic_500 Fake.World Fake.world
           (py "hello") 3 Fake.offline (Raised Fake.provider_error) Fake.offline);
    reflexivity.
Defined.



Lemma C5_witness_first_document :
  truthy (py "vector databases") = true
  /\ run Fake.world (Generated.add_document (py "vector databases")) started =
       (Returned (VDict [(py "status", VStr (py "added"));
                         (py "id", VStr (uuid_str (Fake.uuid_of 0)))]),
        snd (Fake.world
               (upsert Generated.COLLECTION_NAME
                  [mkPointStruct (VStr (uuid_str (Fake.uuid_of 0)))
                     (Fake.embed_text (py "vector databases"))
                     [(py "text", VStr (py "vector databases"))]])
               (snd (Fake.world uuid4 started))),
        [Embedding_acreate MODEL (py "vector databases");
         uuid4;
         upsert Generated.COLLECTION_NAME
           [mkPointStruct (VStr (uuid_str (Fake.uuid_of 0)))
              (Fake.embed_text (py "vector databases"))
              [(py "text", VStr (py "vector databases"))]]]).
Proof.
  split; [reflexivity | ].
  apply (@C5_add_document_upserts_under_a_generated_id Fake.World Fake.world
           (py "vector databases") started
           (mkEmbeddingResponse
              [mkEmbedding (Fake.embed_text (py "vector databases"))])
           (mkEmbedding (Fake.embed_text (py "vector databases"))) []
           started (Fake.uuid_of 0) (snd (Fake.world uuid4 started))).
  - reflexivity.
  - vm_compute. reflexivity.
  - reflexivity.
  - vm_compute. reflexivity.
  - vm_compute. reflexivity.
Defined.



Lemma C3_witness_short_texts :
  let q := py "pasta" in
  let hits := firstn 3 (Fake.rank (Fake.embed_text q) (Fake.points_ seeded)) in
  List.map stored_text hits =
    [Some (py "vector search"); Some (py "cooking pasta");
     Some (py "vector databases")]
  /\ (exists v, result Fake.world (Generated.search q 3) seeded = Returned v)
  /\ ((forall v,
          result Fake.world (Generated.search q 3) seeded = Returned v ->
          Forall2
            (fun hit res =>
               forall t,
                 stored_text hit = Some t ->
                 exists snippet,
                   field res (py "text") = Some (VStr snippet)
                   /\ snippet = firstn 100 t
                   /\ List.length snippet = Nat.min 100 (List.length t)
                   /\ (exists tail, t = snippet ++ tail)
                   /\ ((List.length t < 100)%nat -> snippet = t))
            hits (results_of v))
      /\ (forallb has_stored_text hits = true ->
          exists v, result Fake.world (Generated.search q 3) seeded = Returned v)).
Proof.
  intros q hits.
  split; [vm_compute; reflexivity | ].
  split; [eexists; vm_compute; reflexivity | ].
  apply (@C3_snippet_is_the_first_100_characters Fake.World Fake.world
           q 3 seeded
           (mkEmbeddingResponse [mkEmbedding (Fake.embed_text q)])
           (mkEmbedding (Fake.embed_text q)) [] seeded hits seeded).
  - reflexivity.
  - vm_compute. reflexivity.
  - reflexivity.
  - vm_compute. reflexivity.
Defined.

Lemma C6_witness_empty_registry :
  Fake.holds Fake.empty Generated.COLLECTION_NAME = 0%nat
  /\ Fake.holds started Generated.COLLECTION_NAME = 1%nat
  /\ (let w1 := after Fake.world Generated.startup_event Fake.empty in
      let w2 := after Fake.world Generated.startup_event w1 in
      result Fake.world Generated.startup_event Fake.empty = Returned tt
      /\ result Fake.world Generated.startup_event w1 = Returned tt
      /\ ((0 < Fake.holds Fake.empty Generated.COLLECTION_NAME)%nat ->
          filter is_create (calls Fake.world Generated.startup_event Fake.empty) = [])
      /\ ((0 < Fake.holds w1 Generated.COLLECTION_NAME)%nat ->
          filter is_create (calls Fake.world Generated.startup_event w1) = []
          /\ Fake.holds w2 Generated.COLLECTION_NAME =
             Fake.holds w1 Generated.COLLECTION_NAME)
      /\ ((Fake.holds Fake.empty Generated.COLLECTION_NAME = 0)%nat ->
          (Fake.holds w1 Generated.COLLECTION_NAME = 1)%nat ->
          filter is_create (calls Fake.world Generated.startup_event w1) = []
          /\ (Fake.holds w2 Generated.COLLECTION_NAME = 1)%nat)
      /\ ((Fake.holds Fake.empty Generated.COLLECTION_NAME <= 1)%nat ->
          (Fake.holds w1 Generated.COLLECTION_NAME <= 1)%nat
          /\ (Fake.holds w2 Generated.COLLECTION_NAME <= 1)%nat)
      /\ (forall c,
            In c (calls Fake.world Generated.startup_event Fake.empty
                  ++ calls Fake.world Generated.startup_event w1) ->
            is_create c = true ->
            c = create_collection Generated.COLLECTION_NAME
                  (mkVectorParams 1536 COSINE))).
Proof.
  split; [reflexivity | ]. split; [reflexivity | ].
  apply (@C6_startup_twice_is_startup_once Fake.World Fake.world Fake.holds
           fake_obeys_registry_laws Fake.empty).
Defined.

Lemma C7_witness_foreign_collection :
  Fake.params_of Fake.foreign Generated.COLLECTION_NAME =
    Some (mkVectorParams 768 DOT)
  /\ result Fake.world Generated.startup_event Fake.foreign = Returned tt
  /\ calls Fake.world Generated.startup_event Fake.foreign =
       [get_collections; print (Literal (py "Collection exists"))]
  /\ filter is_create (calls Fake.world Generated.startup_event Fake.foreign) = [].
Proof.
  split; [reflexivity | ].
  apply (@C7_existing_collection_is_accepted_unexamined Fake.World Fake.world
           Fake.foreign
           (mkCollectionsResponse
              [mkCollectionDescription Generated.COLLECTION_NAME])
           Fake.foreign).
  - reflexivity.
  - reflexivity.
Defined.

(** C7 as stated, refuted.  In the world [Fake.foreign] the service's
    collection exists with 768 dimensions and the dot-product metric,
    not the 1536 and cosine that start-up would ask for; start-up
    returns normally there, so it does not raise on a schema mismatch. *)
Lemma C7_counterexample_schema_mismatch_is_not_raised :
  Fake.params_of Fake.foreign Generated.COLLECTION_NAME =
    Some (mkVectorParams 768 DOT)
  /\ mkVectorParams 768 DOT <> mkVectorParams 1536 COSINE
  /\ result Fake.world Generated.startup_event Fake.foreign = Returned tt
  /\ ~ raises_on_schema_mismatch Fake.world Fake.params_of.
Proof.
  split; [reflexivity | ]. split; [discriminate | ]. split; [reflexivity | ].
  intros Hraises.
  destruct (Hraises Fake.foreign (mkVectorParams 768 DOT)) as [e He].
  - reflexivity.
  - discriminate.
  - vm_compute in He. discriminate.
Qed.

(** ** A round trip in the in-memory world *)

(** After start-up and three insertions, searching for the text of the
    second document returns that document first, with similarity 1, and
    its text whole. *)
Example search_finds_the_inserted_document :
  exists second other,
    results_of
      match result Fake.world (Generated.search (py "vector search") 2) seeded with
      | Returned v => v
      | Raised _ => VNone
      end = [second; other]
    /\ field second (py "id") = Some (VStr (uuid_str (Fake.uuid_of 1)))
    /\ field second (py "score") = Some (VFloat (Fake.of_Z 1))
    /\ field second (py "text") = Some (VStr (py "vector search")).
Proof. eexists. eexists. vm_compute. repeat split. Qed.

(** * Further properties of the generated server *)

Section StartupMore.

Variable World : Type.
Variable world : forall c : Call, World -> Ans c * World.

Local Abbreviation NAME := Generated.COLLECTION_NAME.
Local Abbreviation startup := Generated.startup_event.
Local Abbreviation PARAMS := (mkVectorParams 1536 COSINE).

(** X1.  Start-up reports a failure of the store and goes on: when the
    listing raises [e] it prints the error line of [e] and asks for
    nothing more; when the creation raises [e] it prints the error line
    of [e] and not ["Created collection"]; it prints
    ["Created collection"] only after a creation that returned.  In all
    three cases it returns. *)
Theorem X1_startup_prints_the_failure_and_returns (w : World) :
  (forall e w1,
      world get_collections w = (Raised e, w1) ->
      run world startup w =
        (Returned tt, snd (world (print (ErrorLine e)) w1),
         [get_collections; print (ErrorLine e)]))
  /\ (forall r w1 e w2,
        world get_collections w = (Returned r, w1) ->
        contains (List.map name (collections r)) NAME = false ->
        world (create_collection NAME PARAMS) w1 = (Raised e, w2) ->
        run world startup w =
          (Returned tt, snd (world (print (ErrorLine e)) w2),
           [get_collections; create_collection NAME PARAMS;
            print (ErrorLine e)]))
  /\ (forall r w1 w2,
        world get_collections w = (Returned r, w1) ->
        contains (List.map name (collections r)) NAME = false ->
        world (create_collection NAME PARAMS) w1 = (Returned tt, w2) ->
        run world startup w =
          (Returned tt,
           snd (world (print (Literal (py "Created collection"))) w2),
           [get_collections; create_collection NAME PARAMS;
            print (Literal (py "Created collection"))])).
Proof.
  unfold Generated.startup_event. split; [ | split].
  - intros e w1 Hg. simpl. rewrite Hg. simpl.
    destruct (world (print (ErrorLine e)) w1) as [[] w2]. reflexivity.
  - intros r w1 e w2 Hg Hc Hcr. simpl. rewrite Hg. simpl. rewrite Hc. simpl.
    rewrite Hcr. simpl.
    destruct (world (print (ErrorLine e)) w2) as [[] w3]. reflexivity.
  - intros r w1 w2 Hg Hc Hcr. simpl. rewrite Hg. simpl. rewrite Hc. simpl.
    rewrite Hcr. simpl.
    destruct (world (print _) w2) as [[] w3]. reflexivity.
Qed.

(** X2.  Whatever the collaborators answer, start-up returns, and its
    calls are the listing, then at most one creation (of the service's
    collection, 1536 dimensions, cosine), then exactly one [print]: it
    never embeds, upserts, searches or draws an identifier. *)
Theorem X2_startup_lists_creates_at_most_once_and_prints (w : World) :
  result world startup w = Returned tt
  /\ exists line,
       calls world startup w = [get_collections; print line]
       \/ calls world startup w =
            [get_collections; create_collection NAME PARAMS; print line].
Proof.
  split; [apply startup_never_raises | ].
  unfold calls, Generated.startup_event. simpl.
  destruct (world get_collections w) as [[r | e] w1]; simpl.
  - destruct (contains _ _); simpl.
    + destruct (world (print _) w1) as [[] w2]. simpl.
      eexists. left. reflexivity.
    + destruct (world (create_collection _ _) w1) as [[[] | e] w2]; simpl;
        destruct (world (print _) w2) as [[] w3]; simpl;
        eexists; right; reflexivity.
  - destruct (world (print _) w1) as [[] w2]. simpl.
    eexists. left. reflexivity.
Qed.

End StartupMore.

Section EmbeddingMore.

Variable World : Type.
Variable world : forall c : Call, World -> Ans c * World.

(** X3.  [get_embedding] asks the provider once, with the fixed model
    and the text as given, and leaves the world as that call left it.
    It can raise only [HTTPException(500, "Embedding failed")]; and what
    it returns is the embedding of the first item of the provider's
    response, whatever items follow. *)
Theorem X3_get_embedding_first_item_or_500 (text : str) (w : World) :
  calls world (Generated.get_embedding text) w = [Embedding_acreate MODEL text]
  /\ after world (Generated.get_embedding text) w =
       snd (world (Embedding_acreate MODEL text) w)
  /\ (forall e,
        result world (Generated.get_embedding text) w = Raised e ->
        e = HTTPException 500 (py "Embedding failed"))
  /\ (forall v,
        result world (Generated.get_embedding text) w = Returned v ->
        exists r item rest,
          fst (world (Embedding_acreate MODEL text) w) = Returned r
          /\ data r = item :: rest
          /\ v = embedding item).
Proof.
  unfold calls, after, result, Generated.get_embedding. simpl. fold MODEL.
  destruct (world (Embedding_acreate MODEL text) w) as [[r | e0] w1]; simpl.
  - destruct (data r) as [ | item rest] eqn:Hd; simpl.
    + repeat split.
      * intros e H. inversion H. reflexivity.
      * intros v H. discriminate.
    + repeat split.
      * intros e H. discriminate.
      * intros v H. inversion H; subst.
        exists r, item, rest. repeat split. exact Hd.
  - repeat split.
    + intros e H. inversion H. reflexivity.
    + intros v H. discriminate.
Qed.

(** X12.  When the provider returns, [embed] echoes the text, reports
    the length of the vector it got, whatever that length is, and
    samples its first three components: all of them when the vector has
    three or fewer, so a short vector is no error.  Only the first item
    of the response is used. *)
Theorem X12_embed_reports_length_and_first_three
    (text : str) (w : World)
    (r : EmbeddingResponse) (item : Embedding) (rest : list Embedding)
    (w1 : World)
    (Hcall : world (Embedding_acreate MODEL text) w = (Returned r, w1))
    (Hdata : data r = item :: rest) :
  run world (Generated.embed text) w =
    (Returned
       (VDict [(py "text", VStr text);
               (py "dimensions", VInt (len (embedding item)));
               (py "sample",
                VList (List.map VFloat (firstn 3 (embedding item))))]),
     w1, [Embedding_acreate MODEL text])
  /\ List.length (firstn 3 (embedding item)) =
       Nat.min 3 (List.length (embedding item))
  /\ ((List.length (embedding item) <= 3)%nat ->
      firstn 3 (embedding item) = embedding item).
Proof.
  pose proof (@get_embedding_returns _ world text w r item rest w1 Hcall Hdata)
    as Hrun.
  split; [ | split].
  - unfold Generated.embed. rewrite run_bind, Hrun. reflexivity.
  - apply length_firstn.
  - intros Hle. apply firstn_all2. exact Hle.
Qed.

(** X13.  For every text, the empty one included, [embed] makes the
    provider call and no other call (no store access, no identifier),
    and the only exception it can raise is
    [HTTPException(500, "Embedding failed")]. *)
Theorem X13_embed_only_calls_the_provider (text : str) (w : World) :
  calls world (Generated.embed text) w = [Embedding_acreate MODEL text]
  /\ after world (Generated.embed text) w =
       snd (world (Embedding_acreate MODEL text) w)
  /\ (forall e,
        result world (Generated.embed text) w = Raised e ->
        e = HTTPException 500 (py "Embedding failed")).
Proof.
  unfold calls, after, result, Generated.embed, Generated.get_embedding.
  simpl. fold MODEL.
  destruct (world (Embedding_acreate MODEL text) w) as [[r | e0] w1]; simpl.
  - destruct (data r) as [ | item rest]; simpl; repeat split;
      intros e H; inversion H; reflexivity.
  - repeat split. intros e H. inversion H. reflexivity.
Qed.

End EmbeddingMore.

Section InsertionMore.

Variable World : Type.
Variable world : forall c : Call, World -> Ans c * World.

Local Abbreviation NAME := Generated.COLLECTION_NAME.

(** The three shapes a run of [add_document] can take. *)
Lemma add_document_runs (text : str) (w : World) :
  (text = [] /\ calls world (Generated.add_document text) w = [])
  \/ (text <> []
      /\ calls world (Generated.add_document text) w =
           [Embedding_acreate MODEL text]
      /\ result world (Generated.add_document text) w =
           Raised (HTTPException 500 (py "Embedding failed")))
  \/ (text <> []
      /\ exists vec w1 u w2 o w3,
           run world (Generated.get_embedding text) w =
             (Returned vec, w1, [Embedding_acreate MODEL text])
           /\ world uuid4 w1 = (u, w2)
           /\ world (upsert NAME
                       [mkPointStruct (VStr (uuid_str u)) vec
                          [(py "text", VStr text)]]) w2 = (o, w3)
           /\ run world (Generated.add_document text) w =
                (match o with
                 | Returned _ =>
                     Returned (VDict [(py "status", VStr (py "added"));
                                      (py "id", VStr (uuid_str u))])
                 | Raised e => Raised e
                 end,
                 w3,
                 [Embedding_acreate MODEL text; uuid4;
                  upsert NAME
                    [mkPointStruct (VStr (uuid_str u)) vec
                       [(py "text", VStr text)]]])).
Proof.
  destruct text as [ | c text]; [left; split; reflexivity | right].
  pose proof (@get_embedding_calls _ world (c :: text) w) as Hc.
  assert (Hne : c :: text <> []) by discriminate.
  unfold calls, result in *.
  unfold Generated.add_document. simpl negb. cbv iota.
  rewrite !run_bind.
  destruct (run world (Generated.get_embedding (c :: text)) w)
    as [[[vec | e] w1] cs] eqn:Hrun; simpl in Hc; subst cs.
  - right. split; [exact Hne | ]. simpl.
    destruct (world uuid4 w1) as [u w2] eqn:Hu. simpl.
    destruct (world (upsert _ _) w2) as [o w3] eqn:Hup.
    exists vec, w1, u, w2, o, w3.
    split; [reflexivity | ]. split; [exact Hu | ]. split; [exact Hup | ].
    destruct o as [[] | e]; reflexivity.
  - left. split; [exact Hne | ]. simpl. split; [reflexivity | ].
    assert (He : result world (Generated.get_embedding (c :: text)) w = Raised e)
      by (unfold result; rewrite Hrun; reflexivity).
    unfold result, Generated.get_embedding in He. simpl in He.
    destruct (world (Embedding_acreate _ (c :: text)) w) as [[r | e0] w0];
      simpl in He.
    + destruct (data r); simpl in He; inversion He; reflexivity.
    + inversion He; reflexivity.
Qed.

(** X4.  [add_document] makes no call exactly when the text is empty;
    any other text, blank ones included, is sent to the provider as it
    is.  Its calls are the embedding alone (when that fails), or the
    embedding, one [uuid4] and one upsert into the service's collection
    of a single point whose payload is [{"text": text}]: it never
    lists or creates collections and never searches. *)
Theorem X4_add_document_calls (text : str) (w : World) :
  (calls world (Generated.add_document text) w = [] <-> text = [])
  /\ (calls world (Generated.add_document text) w = []
      \/ calls world (Generated.add_document text) w =
           [Embedding_acreate MODEL text]
      \/ exists u vec,
           calls world (Generated.add_document text) w =
             [Embedding_acreate MODEL text; uuid4;
              upsert NAME
                [mkPointStruct (VStr (uuid_str u)) vec
                   [(py "text", VStr text)]]]).
Proof.
  destruct (add_document_runs text w)
    as [[Ht Hc] | [[Hne [Hc _]] | [Hne [vec [w1 [u [w2 [o [w3 [_ [_ [_ Hr]]]]]]]]]]]].
  - rewrite Hc. split; [tauto | left; reflexivity].
  - rewrite Hc. split; [ | right; left; reflexivity].
    split; [discriminate | intros H; contradiction].
  - unfold calls. rewrite Hr. simpl. split.
    + split; [discriminate | intros H; contradiction].
    + right. right. exists u, vec. reflexivity.
Qed.

(** X5.  [add_document] can fail in three ways only: with the 400 of an
    empty text, with the 500 of a failed embedding, or with the very
    exception an upsert it made has raised, which it passes on
    unchanged. *)
Theorem X5_add_document_failures
    (text : str) (w : World) (e : exn)
    (Hraised : result world (Generated.add_document text) w = Raised e) :
  (text = [] /\ e = HTTPException 400 (py "Text required"))
  \/ e = HTTPException 500 (py "Embedding failed")
  \/ exists n points w1 w2,
       In (upsert n points) (calls world (Generated.add_document text) w)
       /\ world (upsert n points) w1 = (Raised e, w2).
Proof.
  destruct (add_document_runs text w)
    as [[Ht Hc] | [[Hne [Hc Hr]] | [Hne [vec [w1 [u [w2 [o [w3 [_ [_ [Hup Hr]]]]]]]]]]]].
  - left. subst text. split; [reflexivity | ].
    unfold result in Hraised. simpl in Hraised. inversion Hraised. reflexivity.
  - right. left. rewrite Hr in Hraised. inversion Hraised. reflexivity.
  - right. right. unfold result, calls in *. rewrite Hr in *. simpl in *.
    destruct o as [[] | e0]; [discriminate | ].
    inversion Hraised; subst e0.
    eexists. eexists. exists w2, w3. split; [ | exact Hup].
    right. right. left. reflexivity.
Qed.

(** X6.  When the upsert raises [e], [add_document] raises [e]: by then
    it has embedded the text and drawn an identifier, which is lost. An
    exception that is not an [HTTPException] reaches the client as a
    bare 500. *)
Theorem X6_add_document_passes_on_the_store_failure
    (text : str) (w : World)
    (r : EmbeddingResponse) (item : Embedding) (rest : list Embedding)
    (w1 : World) (u : UUID) (w2 w3 : World) (cls msg : str)
    (Hnonempty : truthy text = true)
    (Hcall : world (Embedding_acreate MODEL text) w = (Returned r, w1))
    (Hdata : data r = item :: rest)
    (Huuid : world uuid4 w1 = (u, w2))
    (Hupsert :
       world (upsert NAME
                [mkPointStruct (VStr (uuid_str u)) (embedding item)
                   [(py "text", VStr text)]]) w2 =
         (Raised (PyExc cls msg), w3)) :
  run world (Generated.add_document text) w =
    (Raised (PyExc cls msg), w3,
     [Embedding_acreate MODEL text; uuid4;
      upsert NAME
        [mkPointStruct (VStr (uuid_str u)) (embedding item)
           [(py "text", VStr text)]]])
  /\ http_response (result world (Generated.add_document text) w) =
       (500, VStr (py "Internal Server Error")).
Proof.
  pose proof (@get_embedding_returns _ world text w r item rest w1 Hcall Hdata)
    as Hrun.
  assert (H : run world (Generated.add_document text) w =
              (Raised (PyExc cls msg), w3,
               [Embedding_acreate MODEL text; uuid4;
                upsert NAME
                  [mkPointStruct (VStr (uuid_str u)) (embedding item)
                     [(py "text", VStr text)]]])).
  { unfold Generated.add_document. rewrite Hnonempty. simpl negb. cbv iota.
    rewrite run_bind, Hrun. simpl. rewrite Huuid. simpl.
    rewrite Hupsert. reflexivity. }
  split; [exact H | ]. unfold result. rewrite H. reflexivity.
Qed.

(** X7.  What [add_document] writes, [search] can read back: the
    payload of any point it upserts holds the text under ["text"], and a
    hit that comes back with that payload yields a result whose text is
    the first 100 characters of the text that was added. *)
Theorem X7_added_text_comes_back_as_snippet
    (text : str) (w : World) (n : str) (p : PointStruct)
    (Hupserted : In (upsert n [p]) (calls world (Generated.add_document text) w)) :
  n = NAME
  /\ point_payload p = [(py "text", VStr text)]
  /\ forall id score,
       stored_text (mkScoredPoint id score (Some (point_payload p))) = Some text
       /\ Generated.result_of_hit (mkScoredPoint id score (Some (point_payload p))) =
            Ret (VDict [(py "id", id); (py "score", VFloat score);
                        (py "text", VStr (firstn 100 text))]).
Proof.
  destruct (add_document_runs text w)
    as [[Ht Hc] | [[Hne [Hc _]] | [Hne [vec [w1 [u [w2 [o [w3 [_ [_ [_ Hr]]]]]]]]]]]].
  - rewrite Hc in Hupserted. destruct Hupserted.
  - rewrite Hc in Hupserted. destruct Hupserted as [H | []]. discriminate.
  - unfold calls in Hupserted. rewrite Hr in Hupserted. simpl in Hupserted.
    destruct Hupserted as [H | [H | [H | []]]]; try discriminate.
    inversion H; subst. split; [reflexivity | ]. split; [reflexivity | ].
    intros id score. split; reflexivity.
Qed.

End InsertionMore.

Section SearchMore.

Variable World : Type.
Variable world : forall c : Call, World -> Ans c * World.

Local Abbreviation NAME := Generated.COLLECTION_NAME.

Lemma result_of_hit_sliceable hit :
  (sliceable hit = true
   /\ exists item, Generated.result_of_hit hit = Ret item /\ carries hit item)
  \/ (sliceable hit = false
      /\ exists cls msg, Generated.result_of_hit hit = Raise (PyExc cls msg)).
Proof.
  unfold Generated.result_of_hit, carries, sliceable, subscript.
  destruct (hit_payload hit) as [d | ];
    [ | right; split; [reflexivity | eexists; eexists; reflexivity]].
  destruct (dict_get d (py "text")) as [[ | z | f | t | l | d'] | ] eqn:Hd;
    try (right; split; [reflexivity | eexists; eexists; reflexivity]).
  - left. split; [reflexivity | ]. eexists. split; [reflexivity | ].
    split; [reflexivity | ]. split; [reflexivity | ].
    exists d. split; [reflexivity | ].
    left. exists t. split; [exact Hd | reflexivity].
  - left. split; [reflexivity | ]. eexists. split; [reflexivity | ].
    split; [reflexivity | ]. split; [reflexivity | ].
    exists d. split; [reflexivity | ].
    right. exists l. split; [exact Hd | reflexivity].
Qed.

Lemma comprehension_sliceable hits w :
  (forallb sliceable hits = true
   /\ exists items,
        run world (comprehension Generated.result_of_hit hits) w =
          (Returned items, w, [])
        /\ Forall2 carries hits items)
  \/ (forallb sliceable hits = false
      /\ exists cls msg,
           run world (comprehension Generated.result_of_hit hits) w =
             (Raised (PyExc cls msg), w, [])).
Proof.
  induction hits as [ | h hits IH].
  - left. split; [reflexivity | ]. exists []. split; [reflexivity | constructor].
  - simpl comprehension. simpl forallb.
    destruct (result_of_hit_sliceable h)
      as [[Hs [item [Hr Hc]]] | [Hs [cls [msg Hr]]]]; rewrite Hs, Hr; simpl bind.
    + rewrite run_bind.
      destruct IH as [[Hall [items [Hrun Hf]]] | [Hall [cls [msg Hrun]]]];
        rewrite Hall, Hrun; simpl.
      * left. split; [reflexivity | ]. exists (item :: items).
        split; [reflexivity | constructor; assumption].
      * right. split; [reflexivity | ]. exists cls, msg. reflexivity.
    + right. split; [reflexivity | ]. exists cls, msg. reflexivity.
Qed.

Lemma carried_scores hits items :
  Forall2 carries hits items -> scores_of items = List.map hit_score hits.
Proof.
  induction 1 as [ | h item hits items Hc _ IH]; [reflexivity | ].
  destruct Hc as [_ [Hscore _]].
  rewrite (@scores_of_cons item items _ Hscore), IH. reflexivity.
Qed.

Lemma carried_ids hits items :
  Forall2 carries hits items -> ids_of items = List.map hit_id hits.
Proof.
  induction 1 as [ | h item hits items Hc _ IH]; [reflexivity | ].
  destruct Hc as [Hid _]. unfold ids_of in *. simpl flat_map.
  rewrite Hid, IH. reflexivity.
Qed.

(** The run of [search] once the embedding is there, whatever the store
    answers. *)
Lemma search_after_embedding query limit w r item rest w1 o w2 :
  truthy query = true ->
  world (Embedding_acreate MODEL query) w = (Returned r, w1) ->
  data r = item :: rest ->
  world (client_search NAME (embedding item) limit) w1 = (o, w2) ->
  run world (Generated.search query limit) w =
    (match o with
     | Returned hits =>
         match fst (fst (run world
                           (comprehension Generated.result_of_hit hits) w2)) with
         | Returned items =>
             Returned (VDict [(py "query", VStr query);
                              (py "results", VList items)])
         | Raised e => Raised e
         end
     | Raised e => Raised e
     end,
     w2,
     [Embedding_acreate MODEL query;
      client_search NAME (embedding item) limit]).
Proof.
  intros Hq Hcall Hdata Hsearch.
  pose proof (@get_embedding_returns _ world query w r item rest w1 Hcall Hdata)
    as Hrun.
  unfold Generated.search. rewrite Hq. simpl negb. cbv iota.
  rewrite run_bind, Hrun. simpl. rewrite Hsearch.
  destruct o as [hits | e]; simpl; [ | reflexivity].
  rewrite run_bind.
  destruct (@comprehension_run _ world hits w2) as [oc [Ho _]].
  rewrite Ho. destruct oc; reflexivity.
Qed.

(** X8.  [search] makes no call exactly when the query is empty.  Its
    calls are the embedding of the query as given, then, if that
    succeeded, one search of the service's collection with the limit as
    given, whatever its value: the handler does not check that the limit
    is positive.  It never upserts, creates or lists collections, and
    draws no identifier. *)
Theorem X8_search_calls (query : str) (limit : Z) (w : World) :
  (calls world (Generated.search query limit) w = [] <-> query = [])
  /\ (calls world (Generated.search query limit) w = []
      \/ calls world (Generated.search query limit) w =
           [Embedding_acreate MODEL query]
      \/ exists vec,
           calls world (Generated.search query limit) w =
             [Embedding_acreate MODEL query; client_search NAME vec limit]).
Proof.
  destruct query as [ | c query].
  { split; [split; reflexivity | left; reflexivity]. }
  assert (Hne : forall l : list Call,
             (Embedding_acreate MODEL (c :: query) :: l = [] <-> c :: query = [])).
  { intros l. split; discriminate. }
  unfold calls, Generated.search, Generated.get_embedding.
  simpl. fold MODEL.
  destruct (world (Embedding_acreate MODEL (c :: query)) w) as [[r | e] w1]; simpl.
  - destruct (data r) as [ | item rest]; simpl.
    + split; [apply Hne | right; left; reflexivity].
    + destruct (world (client_search _ _ _) w1) as [[hits | e] w2]; simpl.
      * rewrite run_bind.
        destruct (@comprehension_run _ world hits w2) as [o [Ho _]].
        rewrite Ho.
        destruct o; simpl;
          (split; [apply Hne | right; right; eexists; reflexivity]).
      * split; [apply Hne | right; right; eexists; reflexivity].
  - split; [apply Hne | right; left; reflexivity].
Qed.

(** X9.  Once the store has answered with hits, [search] returns if and
    only if every hit has a payload with a string or a list under
    ["text"].  One hit without it makes the whole request fail with an
    exception that is not an [HTTPException], so a bare 500: no partial
    result is returned, though both collaborators have been called. *)
Theorem X9_search_returns_iff_every_hit_can_be_sliced
    (query : str) (k : Z) (w : World)
    (r : EmbeddingResponse) (item : Embedding) (rest : list Embedding)
    (w1 : World) (hits : list ScoredPoint) (w2 : World)
    (Hnonempty : truthy query = true)
    (Hcall : world (Embedding_acreate MODEL query) w = (Returned r, w1))
    (Hdata : data r = item :: rest)
    (Hsearch :
       world (client_search NAME (embedding item) k) w1 = (Returned hits, w2)) :
  ((exists v, result world (Generated.search query k) w = Returned v)
   <-> forallb sliceable hits = true)
  /\ (forallb sliceable hits = false ->
      (exists cls msg,
          result world (Generated.search query k) w = Raised (PyExc cls msg))
      /\ http_response (result world (Generated.search query k) w) =
           (500, VStr (py "Internal Server Error")))
  /\ calls world (Generated.search query k) w =
       [Embedding_acreate MODEL query;
        client_search NAME (embedding item) k].
Proof.
  pose proof (@search_after_embedding query k w r item rest w1
                (Returned hits) w2 Hnonempty Hcall Hdata Hsearch) as Hrun.
  unfold result, calls. rewrite Hrun. simpl fst. simpl snd.
  destruct (comprehension_sliceable hits w2)
    as [[Hall [items [Hc _]]] | [Hall [cls [msg Hc]]]];
    rewrite Hall, Hc; simpl.
  - split; [ | split; [discriminate | reflexivity]].
    split; [reflexivity | intros _; eexists; reflexivity].
  - split; [ | split; [ | reflexivity]].
    + split; [intros [v Hv]; discriminate | discriminate].
    + intros _. split; [exists cls, msg; reflexivity | reflexivity].
Qed.

(** X10.  When the store's search raises [e], [search] raises [e]
    unchanged, after the embedding call and the search call: the client
    gets whatever response [e] itself maps to, not the 500 of a failed
    embedding. *)
Theorem X10_search_passes_on_the_store_failure
    (query : str) (k : Z) (w : World)
    (r : EmbeddingResponse) (item : Embedding) (rest : list Embedding)
    (w1 : World) (e : exn) (w2 : World)
    (Hnonempty : truthy query = true)
    (Hcall : world (Embedding_acreate MODEL query) w = (Returned r, w1))
    (Hdata : data r = item :: rest)
    (Hsearch :
       world (client_search NAME (embedding item) k) w1 = (Raised e, w2)) :
  run world (Generated.search query k) w =
    (Raised e, w2,
     [Embedding_acreate MODEL query; client_search NAME (embedding item) k])
  /\ http_response (result world (Generated.search query k) w) =
       http_response (Raised e).
Proof.
  pose proof (@search_after_embedding query k w r item rest w1
                (Raised e) w2 Hnonempty Hcall Hdata Hsearch) as Hrun.
  split; [exact Hrun | ]. unfold result. rewrite Hrun. reflexivity.
Qed.

(** X11.  [search] mirrors the store's answer: whenever it returns, its
    results are as many as the hits, with the hits' ids and scores in
    the hits' order.  It neither cuts the list to the limit nor sorts
    it, so a store that returns too many hits or hits out of order
    shows through. *)
Theorem X11_search_mirrors_the_store
    (query : str) (k : Z) (w : World)
    (r : EmbeddingResponse) (item : Embedding) (rest : list Embedding)
    (w1 : World) (hits : list ScoredPoint) (w2 : World)
    (Hnonempty : truthy query = true)
    (Hcall : world (Embedding_acreate MODEL query) w = (Returned r, w1))
    (Hdata : data r = item :: rest)
    (Hsearch :
       world (client_search NAME (embedding item) k) w1 = (Returned hits, w2)) :
  forall v,
    result world (Generated.search query k) w = Returned v ->
    List.length (results_of v) = List.length hits
    /\ ids_of (results_of v) = List.map hit_id hits
    /\ scores_of (results_of v) = List.map hit_score hits.
Proof.
  pose proof (@search_after_embedding query k w r item rest w1
                (Returned hits) w2 Hnonempty Hcall Hdata Hsearch) as Hrun.
  unfold result. rewrite Hrun. simpl fst.
  destruct (comprehension_sliceable hits w2)
    as [[_ [items [Hc Hf]]] | [_ [cls [msg Hc]]]]; rewrite Hc; simpl.
  - intros v Hv. inversion Hv; subst v.
    change (results_of _) with items.
    split; [symmetry; exact (Forall2_length Hf) | ].
    split; [exact (carried_ids Hf) | exact (carried_scores Hf)].
  - intros v Hv. discriminate.
Qed.

End SearchMore.

(** * The generator script *)

Section ScriptFacts.

Variable OS : Type.
Variable os : forall c : Script.Cmd, OS -> outcome (Script.Reply c) * OS.

Lemma script_run_bind A B (p : Script.Prog A) (f : A -> Script.Prog B) (s : OS) :
  Script.run os (Script.bind p f) s =
  match Script.run os p s with
  | (Returned a, s1, evs) =>
      let '(o, s2, evs') := Script.run os (f a) s1 in (o, s2, evs ++ evs')
  | (Raised e, s1, evs) => (Raised e, s1, evs)
  end.
Proof.
  revert s. induction p as [a | e | c k IH]; intros s; simpl.
  - destruct (Script.run os (f a) s) as [[o s2] evs']. reflexivity.
  - reflexivity.
  - destruct (os c s) as [r s1]. rewrite IH.
    destruct (Script.run os (k r) s1) as [[[x | e] s2] evs]; [ | reflexivity].
    destruct (Script.run os (f x) s2) as [[o s3] evs']. reflexivity.
Qed.

Lemma seq_run A (p : Script.Prog unit) (q : Script.Prog A) (s : OS) :
  Script.run os (Script.seq p q) s =
  match Script.run os p s with
  | (Returned _, s1, evs) =>
      let '(o, s2, evs') := Script.run os q s1 in (o, s2, evs ++ evs')
  | (Raised e, s1, evs) => (Raised e, s1, evs)
  end.
Proof. unfold Script.seq. apply script_run_bind. Qed.

Lemma seq_result A (p : Script.Prog unit) (q : Script.Prog A) (s : OS) :
  Script.result os (Script.seq p q) s =
  match Script.result os p s with
  | Returned _ => Script.result os q (Script.after os p s)
  | Raised e => Raised e
  end.
Proof.
  unfold Script.result, Script.after, Script.seq. rewrite script_run_bind.
  destruct (Script.run os p s) as [[[x | e] s1] evs]; simpl; [ | reflexivity].
  destruct (Script.run os q s1) as [[o s2] evs']. reflexivity.
Qed.

Lemma seq_after A (p : Script.Prog unit) (q : Script.Prog A) (s : OS) :
  Script.after os (Script.seq p q) s =
  match Script.result os p s with
  | Returned _ => Script.after os q (Script.after os p s)
  | Raised _ => Script.after os p s
  end.
Proof.
  unfold Script.result, Script.after, Script.seq. rewrite script_run_bind.
  destruct (Script.run os p s) as [[[x | e] s1] evs]; simpl; [ | reflexivity].
  destruct (Script.run os q s1) as [[o s2] evs']. reflexivity.
Qed.

Lemma seq_events A (p : Script.Prog unit) (q : Script.Prog A) (s : OS) :
  Script.events os (Script.seq p q) s =
  match Script.result os p s with
  | Returned _ =>
      Script.events os p s ++ Script.events os q (Script.after os p s)
  | Raised _ => Script.events os p s
  end.
Proof.
  unfold Script.result, Script.after, Script.events, Script.seq.
  rewrite script_run_bind.
  destruct (Script.run os p s) as [[[x | e] s1] evs]; simpl; [ | reflexivity].
  destruct (Script.run os q s1) as [[o s2] evs']. reflexivity.
Qed.

(** A run of [with open(path, "w") as f: f.write(text)]: the open
    raised, or the file was opened, written to, and closed. *)
Lemma write_file_run path text s :
  (exists e s1,
      os (Script.open_w path) s = (Raised e, s1)
      /\ Script.run os (Script.write_file path text) s =
           (Raised e, s1, [@Script.mkEvent (Script.open_w path) (Raised e)]))
  \/ (exists f s1 rw s2 rc s3,
         os (Script.open_w path) s = (Returned f, s1)
         /\ os (Script.f_write f text) s1 = (rw, s2)
         /\ os (Script.f_close f) s2 = (rc, s3)
         /\ Script.run os (Script.write_file path text) s =
              (match rc with
               | Raised e => Raised e
               | Returned _ =>
                   match rw with
                   | Raised e => Raised e
                   | Returned _ => Returned tt
                   end
               end,
               s3,
               [@Script.mkEvent (Script.open_w path) (Returned f);
                @Script.mkEvent (Script.f_write f text) rw;
                @Script.mkEvent (Script.f_close f) rc])).
Proof.
  unfold Script.write_file, Script.with_open_w, Script.exec. simpl.
  destruct (os (Script.open_w path) s) as [[f | e] s1] eqn:Hopen; simpl.
  - right. destruct (os (Script.f_write f text) s1) as [rw s2] eqn:Hw.
    destruct (os (Script.f_close f) s2) as [rc s3] eqn:Hc.
    exists f, s1, rw, s2, rc, s3.
    split; [reflexivity | ]. split; [exact Hw | ]. split; [exact Hc | ].
    destruct rw as [n | e]; simpl; rewrite Hc;
      destruct rc as [[] | e']; reflexivity.
  - left. exists e, s1. split; reflexivity.
Qed.

Lemma exec_run (c : Script.Cmd) s :
  Script.run os (Script.exec c) s =
  (match fst (os c s) with
   | Returned _ => Returned tt
   | Raised e => Raised e
   end,
   snd (os c s),
   [@Script.mkEvent c (fst (os c s))]).
Proof.
  unfold Script.exec. simpl. destruct (os c s) as [[x | e] s1]; reflexivity.
Qed.

(** The open file objects of a list of events are all closed, in the
    order they were opened. *)
Local Abbreviation balanced evs :=
  (flat_map Script.opened evs = flat_map Script.closed evs).

Lemma balanced_seq A (p : Script.Prog unit) (q : Script.Prog A) :
  (forall s, balanced (Script.events os p s)) ->
  (forall s, balanced (Script.events os q s)) ->
  forall s, balanced (Script.events os (Script.seq p q) s).
Proof.
  intros Hp Hq s. rewrite seq_events.
  destruct (Script.result os p s); [ | apply Hp].
  rewrite !flat_map_app, Hp, Hq. reflexivity.
Qed.

Lemma balanced_write_file path text s :
  balanced (Script.events os (Script.write_file path text) s).
Proof.
  unfold Script.events.
  destruct (write_file_run path text s)
    as [[e [s1 [_ Hr]]] | [f [s1 [rw [s2 [rc [s3 [_ [_ [_ Hr]]]]]]]]]];
    rewrite Hr; reflexivity.
Qed.

Lemma balanced_makedirs path b s :
  balanced (Script.events os (Script.exec (Script.os_makedirs path b)) s).
Proof. unfold Script.events. rewrite exec_run. reflexivity. Qed.

Lemma balanced_print l s :
  balanced (Script.events os (Script.exec (Script.print_ l)) s).
Proof. unfold Script.events. rewrite exec_run. reflexivity. Qed.

(** X14.  Whatever the operating system answers, and wherever the
    script stops, every file it has opened it has also closed, in the
    same order: a failed write still closes its file. *)
Theorem X14_generator_closes_every_file_it_opens (s : OS) :
  flat_map Script.opened (Script.events os Script.create_rag s) =
  flat_map Script.closed (Script.events os Script.create_rag s).
Proof.
  revert s. unfold Script.create_rag.
  repeat (apply balanced_seq;
          [first [apply balanced_makedirs | apply balanced_write_file
                 | apply balanced_print] | ]).
  apply balanced_print.
Qed.

End ScriptFacts.

Section ScriptOrder.

Variable OS : Type.
Variable os : forall c : Script.Cmd, OS -> outcome (Script.Reply c) * OS.

Local Abbreviation MAKEDIRS := (Script.os_makedirs (py "src/api") true).

(** X15.  The script has no exception handling.  If [makedirs] raises,
    the script ends with that exception and opens no file.  And
    [requirements.txt] is opened only after the directory was made, the
    server file opened, written with the whole generated text and
    closed, and the first message printed, each without an exception.
    The script opens no other path than these two, and each at most
    once. *)
Theorem X15_generator_stops_at_the_first_failure (s : OS) :
  (forall e s1,
      os MAKEDIRS s = (Raised e, s1) ->
      Script.run os Script.create_rag s =
        (Raised e, s1, [@Script.mkEvent MAKEDIRS (Raised e)]))
  /\ (In Script.REQUIREMENTS_PATH
         (flat_map Script.opened_path (Script.events os Script.create_rag s)) ->
      exists f n rest,
        Script.events os Script.create_rag s =
          [@Script.mkEvent MAKEDIRS (Returned tt);
           @Script.mkEvent (Script.open_w Script.SERVER_PATH) (Returned f);
           @Script.mkEvent (Script.f_write f Script.rag_code) (Returned n);
           @Script.mkEvent (Script.f_close f) (Returned tt);
           @Script.mkEvent (Script.print_ Script.created_server) (Returned tt)]
          ++ rest)
  /\ (flat_map Script.opened_path (Script.events os Script.create_rag s) = []
      \/ flat_map Script.opened_path (Script.events os Script.create_rag s) =
           [Script.SERVER_PATH]
      \/ flat_map Script.opened_path (Script.events os Script.create_rag s) =
           [Script.SERVER_PATH; Script.REQUIREMENTS_PATH]).
Proof.
  unfold Script.events, Script.create_rag.
  rewrite (seq_run os (Script.exec MAKEDIRS)), exec_run.
  destruct (os MAKEDIRS s) as [[[] | e0] s1] eqn:Hmk; cbn [fst snd].
  2:{ split; [intros e s2 H; inversion H; subst; reflexivity | ].
      split; [intros [] | left; reflexivity]. }
  split; [intros e s2 H; discriminate | ].
  rewrite (seq_run os (Script.write_file Script.SERVER_PATH Script.rag_code)).
  destruct (write_file_run os Script.SERVER_PATH Script.rag_code s1)
    as [[e [s2 [_ Hr]]] | [f [s2 [rw [s3 [rc [s4 [_ [_ [_ Hr]]]]]]]]]];
    rewrite Hr; clear Hr.
  { simpl. split; [intros [H | []]; vm_compute in H; discriminate | ].
    right. left. reflexivity. }
  destruct rc as [[] | ec].
  2:{ simpl. split; [intros [H | []]; vm_compute in H; discriminate | ].
      right. left. reflexivity. }
  destruct rw as [n | ew].
  2:{ simpl. split; [intros [H | []]; vm_compute in H; discriminate | ].
      right. left. reflexivity. }
  rewrite (seq_run os (Script.exec (Script.print_ Script.created_server))),
    exec_run.
  destruct (os (Script.print_ Script.created_server) s4) as [[[] | ep] s5];
    cbn [fst snd].
  2:{ simpl. split; [intros [H | []]; vm_compute in H; discriminate | ].
      right. left. reflexivity. }
  split.
  - intros _.
    destruct (Script.run os _ s5) as [[o s6] evs]. simpl.
    exists f, n, evs. reflexivity.
  - rewrite (seq_run os
               (Script.write_file Script.REQUIREMENTS_PATH Script.requirements)).
    destruct (write_file_run os Script.REQUIREMENTS_PATH Script.requirements s5)
      as [[e [s6 [_ Hr]]] | [g [s6 [rw [s7 [rc [s8 [_ [_ [_ Hr]]]]]]]]]];
      rewrite Hr; clear Hr.
    { right. right. reflexivity. }
    destruct rc as [[] | ec]; [ | right; right; reflexivity].
    destruct rw as [m | ew]; [ | right; right; reflexivity].
    rewrite (seq_run os (Script.exec (Script.print_ Script.created_requirements))),
      exec_run.
    destruct (os (Script.print_ Script.created_requirements) s8) as [[[] | ?] s9];
      cbn [fst snd]; [ | right; right; reflexivity].
    rewrite (seq_run os (Script.exec (Script.print_ Script.now_run))), exec_run.
    destruct (os (Script.print_ Script.now_run) s9) as [[[] | ?] s10];
      cbn [fst snd]; [ | right; right; reflexivity].
    rewrite (seq_run os (Script.exec (Script.print_ _))), exec_run.
    destruct (os (Script.print_ _) s10) as [[[] | ?] s11];
      cbn [fst snd]; [ | right; right; reflexivity].
    rewrite exec_run.
    destruct (os (Script.print_ _) s11) as [[[] | ?] s12];
      right; right; reflexivity.
Qed.

End ScriptOrder.

Section ScriptFiles.

Variable OS : Type.
Variable os : forall c : Script.Cmd, OS -> outcome (Script.Reply c) * OS.
Variable file : OS -> str -> option str.
Variable target : OS -> Script.handle -> option str.
Hypothesis laws : Script.disk_laws os file target.

Lemma exec_makedirs_keeps path b s q :
  file (Script.after os (Script.exec (Script.os_makedirs path b)) s) q = file s q.
Proof.
  unfold Script.after. rewrite exec_run. simpl.
  destruct (os (Script.os_makedirs path b) s) as [o s1] eqn:H.
  exact (Script.makedirs_keeps laws _ H q).
Qed.

Lemma exec_print_keeps l s q :
  file (Script.after os (Script.exec (Script.print_ l)) s) q = file s q.
Proof.
  unfold Script.after. rewrite exec_run. simpl.
  destruct (os (Script.print_ l) s) as [o s1] eqn:H.
  exact (Script.print_keeps laws _ H q).
Qed.

(** A file statement that returns leaves exactly the text in the file,
    whatever was there, and touches no other file. *)
Lemma write_file_spec path text s :
  Script.result os (Script.write_file path text) s = Returned tt ->
  file (Script.after os (Script.write_file path text) s) path = Some text
  /\ forall q, q <> path ->
       file (Script.after os (Script.write_file path text) s) q = file s q.
Proof.
  unfold Script.result, Script.after.
  destruct (write_file_run os path text s)
    as [[e [s1 [_ Hr]]] | [f [s1 [rw [s2 [rc [s3 [Ho [Hw [Hc Hr]]]]]]]]]];
    rewrite Hr; simpl; [discriminate | ].
  destruct rc as [[] | ec]; [ | discriminate].
  destruct rw as [n | ew]; [ | discriminate].
  intros _.
  destruct (Script.open_truncates laws _ Ho) as [Hempty [Htarget Hothers]].
  destruct (Script.write_appends laws _ Hw Htarget Hempty) as [Hfull Hothers2].
  pose proof (Script.close_keeps laws _ Hc) as Hclose.
  split.
  - rewrite Hclose, Hfull. reflexivity.
  - intros q Hq. rewrite Hclose, (Hothers2 q Hq), (Hothers q Hq). reflexivity.
Qed.

Lemma paths_differ : Script.SERVER_PATH <> Script.REQUIREMENTS_PATH.
Proof. intros H. vm_compute in H. discriminate. Qed.

(** X16.  On any file system that keeps the laws of files, a run of the
    script that returns leaves the generated text, whole, as the content
    of [src/api/server.py] and the five pinned requirements as the
    content of [requirements.txt], whatever those files held before, and
    leaves every other file as it was.  A second run that returns
    changes no file at all. *)
Theorem X16_generator_writes_the_two_files_and_no_other :
  (forall s,
      Script.result os Script.create_rag s = Returned tt ->
      file (Script.after os Script.create_rag s) Script.SERVER_PATH =
        Some Script.rag_code
      /\ file (Script.after os Script.create_rag s) Script.REQUIREMENTS_PATH =
           Some Script.requirements
      /\ (forall q,
            q <> Script.SERVER_PATH -> q <> Script.REQUIREMENTS_PATH ->
            file (Script.after os Script.create_rag s) q = file s q))
  /\ (forall s,
        Script.result os Script.create_rag s = Returned tt ->
        Script.result os Script.create_rag
          (Script.after os Script.create_rag s) = Returned tt ->
        forall q,
          file (Script.after os Script.create_rag
                  (Script.after os Script.create_rag s)) q =
          file (Script.after os Script.create_rag s) q).
Proof.
  assert (Hpost : forall s,
      Script.result os Script.create_rag s = Returned tt ->
      file (Script.after os Script.create_rag s) Script.SERVER_PATH =
        Some Script.rag_code
      /\ file (Script.after os Script.create_rag s) Script.REQUIREMENTS_PATH =
           Some Script.requirements
      /\ (forall q,
            q <> Script.SERVER_PATH -> q <> Script.REQUIREMENTS_PATH ->
            file (Script.after os Script.create_rag s) q = file s q)).
  { intros s H. unfold Script.create_rag in *.
    repeat match type of H with
           | Script.result os (Script.seq ?p ?q) ?s0 = _ =>
               rewrite (seq_result os p q s0) in H;
               rewrite (seq_after os p q s0);
               destruct (Script.result os p s0) as [[] | ?] eqn:?;
               [ | discriminate H]
           end.
    rewrite !exec_print_keeps.
    match goal with
    | Hr : Script.result os (Script.write_file Script.REQUIREMENTS_PATH _) ?s0
           = Returned tt |- _ =>
        destruct (write_file_spec _ _ _ Hr) as [Hreq Hreq_others]
    end.
    match goal with
    | Hs : Script.result os (Script.write_file Script.SERVER_PATH _) ?s0
           = Returned tt |- _ =>
        destruct (write_file_spec _ _ _ Hs) as [Hsrv Hsrv_others]
    end.
    split; [ | split].
    - rewrite (Hreq_others _ paths_differ), exec_print_keeps. exact Hsrv.
    - exact Hreq.
    - intros q Hq1 Hq2. rewrite ?exec_print_keeps.
      rewrite (Hreq_others q Hq2), exec_print_keeps, (Hsrv_others q Hq1).
      apply exec_makedirs_keeps. }
  split; [exact Hpost | ].
  intros s H1 H2 q.
  destruct (Hpost s H1) as [A1 [B1 _]].
  destruct (Hpost _ H2) as [A2 [B2 C2]].
  destruct (list_eq_dec N.eq_dec q Script.SERVER_PATH) as [E | NE];
    [subst q; rewrite A1, A2; reflexivity | ].
  destruct (list_eq_dec N.eq_dec q Script.REQUIREMENTS_PATH) as [E' | NE'];
    [subst q; rewrite B1, B2; reflexivity | ].
  apply C2; assumption.
Qed.

End ScriptFiles.

(** ** The in-memory disk keeps the laws of files *)

Lemma str_eqb_eq (a b : str) : str_eqb a b = true <-> a = b.
Proof.
  split.
  - revert b. induction a as [ | x a IH]; intros [ | y b]; simpl;
      try discriminate; [reflexivity | ].
    intros H. apply andb_true_iff in H. destruct H as [Hx Ha].
    apply N.eqb_eq in Hx. subst y. rewrite (IH b Ha). reflexivity.
  - intros H. subst b. apply str_eqb_refl.
Qed.

Lemma lookup_store_same fs p t :
  Script.Disk.lookup (Script.Disk.store fs p t) p = Some t.
Proof. simpl. rewrite str_eqb_refl. reflexivity. Qed.

Lemma lookup_store_other fs p t q :
  q <> p ->
  Script.Disk.lookup (Script.Disk.store fs p t) q = Script.Disk.lookup fs q.
Proof.
  intros Hq. simpl.
  destruct (str_eqb p q) eqn:E;
    [apply str_eqb_eq in E; subst q; contradiction | ].
  induction fs as [ | [k v] fs IH]; simpl; [reflexivity | ].
  destruct (str_eqb k p) eqn:Ek; simpl.
  - apply str_eqb_eq in Ek. subst k. rewrite E. exact IH.
  - destruct (str_eqb k q); [reflexivity | exact IH].
Qed.

Lemma disk_keeps_the_laws :
  Script.disk_laws Script.Disk.os Script.Disk.file Script.Disk.target.
Proof.
  constructor.
  - intros s p f s1 H. simpl in H.
    destruct (negb _ && negb _); inversion H; subst; clear H.
    unfold Script.Disk.file, Script.Disk.target. simpl Script.Disk.files.
    split; [apply lookup_store_same | ]. split.
    + simpl. rewrite N.eqb_refl. reflexivity.
    + intros q Hq. apply lookup_store_other. exact Hq.
  - intros s f t n s1 p old H Ht Hf. simpl in H. rewrite Ht, Hf in H.
    inversion H; subst; clear H.
    unfold Script.Disk.file. simpl Script.Disk.files.
    split; [apply lookup_store_same | ].
    intros q Hq. apply lookup_store_other. exact Hq.
  - intros s f o s1 H q. simpl in H. inversion H; subst. reflexivity.
  - intros s p b o s1 H q. unfold Script.Disk.os in H.
    destruct (existsb _ _); [inversion H; subst; reflexivity | ].
    destruct (_ && _); inversion H; subst; reflexivity.
  - intros s l o s1 H q. simpl in H. inversion H; subst. reflexivity.
Qed.

(** ** The further properties at work *)

Lemma X5_witness_collection_missing :
  result Fake.world (Generated.add_document (py "orphan")) Fake.empty =
    Raised Fake.not_found
  /\ ((py "orphan" = [] /\ Fake.not_found = HTTPException 400 (py "Text required"))
      \/ Fake.not_found = HTTPException 500 (py "Embedding failed")
      \/ exists n points w1 w2,
           In (upsert n points)
              (calls Fake.world (Generated.add_document (py "orphan")) Fake.empty)
           /\ Fake.world (upsert n points) w1 = (Raised Fake.not_found, w2)).
Proof.
  split; [vm_compute; reflexivity | ].
  apply (@X5_add_document_failures Fake.World Fake.world
           (py "orphan") Fake.empty Fake.not_found).
  vm_compute. reflexivity.
Defined.

Lemma X6_witness_collection_missing :
  let text := py "orphan" in
  let point :=
    mkPointStruct (VStr (uuid_str (Fake.uuid_of 0))) (Fake.embed_text text)
      [(py "text", VStr text)] in
  truthy text = true
  /\ (run Fake.world (Generated.add_document text) Fake.empty =
        (Raised (PyExc (py "UnexpectedResponse") (py "404 Not Found")),
         snd (Fake.world uuid4 Fake.empty),
         [Embedding_acreate MODEL text; uuid4;
          upsert Generated.COLLECTION_NAME [point]])
      /\ http_response
           (result Fake.world (Generated.add_document text) Fake.empty) =
           (500, VStr (py "Internal Server Error"))).
Proof.
  intros text point. split; [reflexivity | ].
  apply (@X6_add_document_passes_on_the_store_failure Fake.World Fake.world
           text Fake.empty
           (mkEmbeddingResponse [mkEmbedding (Fake.embed_text text)])
           (mkEmbedding (Fake.embed_text text)) []
           Fake.empty (Fake.uuid_of 0)
           (snd (Fake.world uuid4 Fake.empty))
           (snd (Fake.world uuid4 Fake.empty))
           (py "UnexpectedResponse") (py "404 Not Found")).
  - reflexivity.
  - vm_compute. reflexivity.
  - reflexivity.
  - vm_compute. reflexivity.
  - vm_compute. reflexivity.
Defined.

Lemma X7_witness_first_document :
  let text := py "vector databases" in
  let point :=
    mkPointStruct (VStr (uuid_str (Fake.uuid_of 0))) (Fake.embed_text text)
      [(py "text", VStr text)] in
  In (upsert Generated.COLLECTION_NAME [point])
     (calls Fake.world (Generated.add_document text) started)
  /\ (Generated.COLLECTION_NAME = Generated.COLLECTION_NAME
      /\ point_payload point = [(py "text", VStr text)]
      /\ forall id score,
           stored_text (mkScoredPoint id score (Some (point_payload point))) =
             Some text
           /\ Generated.result_of_hit
                (mkScoredPoint id score (Some (point_payload point))) =
                Ret (VDict [(py "id", id); (py "score", VFloat score);
                            (py "text", VStr (firstn 100 text))])).
Proof.
  intros text point.
  assert (Hin : In (upsert Generated.COLLECTION_NAME [point])
                   (calls Fake.world (Generated.add_document text) started)).
  { right. right. left. vm_compute. reflexivity. }
  split; [exact Hin | ].
  exact (@X7_added_text_comes_back_as_snippet Fake.World Fake.world
           text started Generated.COLLECTION_NAME point Hin).
Defined.

Lemma X9_witness_one_hit_without_text :
  let hits :=
    match Stub.neighbours Stub.ragged with
    | Returned hs => hs
    | Raised _ => []
    end in
  List.map sliceable hits = [true; false; true]
  /\ result Stub.world (Generated.search (py "q") 3) Stub.ragged =
       Raised (PyExc (py "KeyError") (py "text"))
  /\ (((exists v,
          result Stub.world (Generated.search (py "q") 3) Stub.ragged = Returned v)
       <-> forallb sliceable hits = true)
      /\ (forallb sliceable hits = false ->
          (exists cls msg,
              result Stub.world (Generated.search (py "q") 3) Stub.ragged =
                Raised (PyExc cls msg))
          /\ http_response
               (result Stub.world (Generated.search (py "q") 3) Stub.ragged) =
               (500, VStr (py "Internal Server Error")))
      /\ calls Stub.world (Generated.search (py "q") 3) Stub.ragged =
           [Embedding_acreate MODEL (py "q");
            client_search Generated.COLLECTION_NAME Stub.unit_vector 3]).
Proof.
  intros hits. split; [reflexivity | ]. split; [vm_compute; reflexivity | ].
  apply (@X9_search_returns_iff_every_hit_can_be_sliced Stub.Answers Stub.world
           (py "q") 3 Stub.ragged
           (mkEmbeddingResponse [mkEmbedding Stub.unit_vector])
           (mkEmbedding Stub.unit_vector) [] Stub.ragged hits Stub.ragged);
    reflexivity.
Defined.

Lemma X10_witness_collection_missing :
  truthy (py "q") = true
  /\ (run Fake.world (Generated.search (py "q") 3) Fake.empty =
        (Raised Fake.not_found, Fake.empty,
         [Embedding_acreate MODEL (py "q");
          client_search Generated.COLLECTION_NAME (Fake.embed_text (py "q")) 3])
      /\ http_response (result Fake.world (Generated.search (py "q") 3) Fake.empty)
         = http_response (Raised Fake.not_found)).
Proof.
  split; [reflexivity | ].
  apply (@X10_search_passes_on_the_store_failure Fake.World Fake.world
           (py "q") 3 Fake.empty
           (mkEmbeddingResponse [mkEmbedding (Fake.embed_text (py "q"))])
           (mkEmbedding (Fake.embed_text (py "q"))) []
           Fake.empty Fake.not_found Fake.empty).
  - reflexivity.
  - vm_compute. reflexivity.
  - reflexivity.
  - vm_compute. reflexivity.
Defined.

Lemma X11_witness_three_hits_for_limit_one :
  let hits :=
    match Stub.neighbours Stub.sloppy with
    | Returned hs => hs
    | Raised _ => []
    end in
  List.length hits = 3%nat
  /\ non_increasing (List.map hit_score hits) = false
  /\ (exists v,
        result Stub.world (Generated.search (py "q") 1) Stub.sloppy = Returned v)
  /\ (forall v,
        result Stub.world (Generated.search (py "q") 1) Stub.sloppy = Returned v ->
        List.length (results_of v) = List.length hits
        /\ ids_of (results_of v) = List.map hit_id hits
        /\ scores_of (results_of v) = List.map hit_score hits).
Proof.
  intros hits. split; [reflexivity | ]. split; [vm_compute; reflexivity | ].
  split; [eexists; vm_compute; reflexivity | ].
  apply (@X11_search_mirrors_the_store Stub.Answers Stub.world
           (py "q") 1 Stub.sloppy
           (mkEmbeddingResponse [mkEmbedding Stub.unit_vector])
           (mkEmbedding Stub.unit_vector) [] Stub.sloppy hits Stub.sloppy);
    reflexivity.
Defined.

Lemma X12_witness_two_components :
  run Stub.world (Generated.embed (py "hi")) Stub.short_vector =
    (Returned
       (VDict [(py "text", VStr (py "hi"));
               (py "dimensions", VInt 2);
               (py "sample", VList (List.map VFloat Stub.unit_vector))]),
     Stub.short_vector, [Embedding_acreate MODEL (py "hi")])
  /\ (run Stub.world (Generated.embed (py "hi")) Stub.short_vector =
        (Returned
           (VDict [(py "text", VStr (py "hi"));
                   (py "dimensions", VInt (len Stub.unit_vector));
                   (py "sample",
                    VList (List.map VFloat (firstn 3 Stub.unit_vector)))]),
         Stub.short_vector, [Embedding_acreate MODEL (py "hi")])
      /\ List.length (firstn 3 Stub.unit_vector) =
           Nat.min 3 (List.length Stub.unit_vector)
      /\ ((List.length Stub.unit_vector <= 3)%nat ->
          firstn 3 Stub.unit_vector = Stub.unit_vector)).
Proof.
  split; [reflexivity | ].
  apply (@X12_embed_reports_length_and_first_three Stub.Answers Stub.world
           (py "hi") Stub.short_vector
           (mkEmbeddingResponse
              [mkEmbedding Stub.unit_vector; mkEmbedding [Fake.of_Z 7]])
           (mkEmbedding Stub.unit_vector) [mkEmbedding [Fake.of_Z 7]]
           Stub.short_vector);
    reflexivity.
Defined.

Lemma X16_witness_checkout :
  Script.Disk.file Script.Disk.checkout Script.SERVER_PATH =
    Some (py "app = FastAPI()")
  /\ Script.result Script.Disk.os Script.create_rag Script.Disk.checkout =
       Returned tt
  /\ (Script.Disk.file
        (Script.after Script.Disk.os Script.create_rag Script.Disk.checkout)
        Script.SERVER_PATH = Some Script.rag_code
      /\ Script.Disk.file
           (Script.after Script.Disk.os Script.create_rag Script.Disk.checkout)
           Script.REQUIREMENTS_PATH = Some Script.requirements
      /\ (forall q,
            q <> Script.SERVER_PATH -> q <> Script.REQUIREMENTS_PATH ->
            Script.Disk.file
              (Script.after Script.Disk.os Script.create_rag Script.Disk.checkout)
              q = Script.Disk.file Script.Disk.checkout q)).
Proof.
  split; [reflexivity | ]. split; [vm_compute; reflexivity | ].
  apply (proj1 (@X16_generator_writes_the_two_files_and_no_other
                  Script.Disk.State Script.Disk.os Script.Disk.file
                  Script.Disk.target disk_keeps_the_laws)).
  vm_compute. reflexivity.
Defined.

(** On a blank disk the script makes the directory first, so both files
    can be opened; where [src] is a regular file it stops at once. *)
Example generator_on_blank_and_blocked_disks :
  Script.result Script.Disk.os Script.create_rag Script.Disk.blank = Returned tt
  /\ flat_map Script.opened
       (Script.events Script.Disk.os Script.create_rag Script.Disk.blank) =
       [0%N; 1%N]
  /\ Script.result Script.Disk.os Script.create_rag Script.Disk.blocked =
       Raised Script.Disk.file_exists
  /\ Script.Disk.files
       (Script.after Script.Disk.os Script.create_rag Script.Disk.blocked) =
       Script.Disk.files Script.Disk.blocked.
Proof. vm_compute. repeat split. Qed.

Section StartupRegistry.

Variable World : Type.
Variable world : forall c : Call, World -> Ans c * World.
Variable copies : World -> str -> nat.
Hypothesis laws : registry_laws world copies.

Local Abbreviation NAME := Generated.COLLECTION_NAME.
Local Abbreviation startup := Generated.startup_event.
Local Abbreviation PARAMS := (mkVectorParams 1536 COSINE).

(** X17.  Against a store that obeys the registry laws, start-up leaves
    the service's collection in place when the listing names it or the
    creation returns: in the second case there was none and there is
    exactly one afterwards.  When the listing or the creation raises,
    start-up returns all the same and the registry holds what it held:
    after a refused creation the service runs without its collection. *)
Theorem X17_startup_leaves_one_collection_or_none (w : World) :
  (forall r w1,
      world get_collections w = (Returned r, w1) ->
      contains (List.map name (collections r)) NAME = true ->
      (0 < copies w NAME)%nat
      /\ copies (after world startup w) NAME = copies w NAME)
  /\ (forall r w1 w2,
        world get_collections w = (Returned r, w1) ->
        contains (List.map name (collections r)) NAME = false ->
        world (create_collection NAME PARAMS) w1 = (Returned tt, w2) ->
        copies w NAME = 0%nat
        /\ copies (after world startup w) NAME = 1%nat)
  /\ (forall r w1 e w2,
        world get_collections w = (Returned r, w1) ->
        contains (List.map name (collections r)) NAME = false ->
        world (create_collection NAME PARAMS) w1 = (Raised e, w2) ->
        result world startup w = Returned tt
        /\ copies (after world startup w) NAME = 0%nat)
  /\ (forall e w1,
        world get_collections w = (Raised e, w1) ->
        result world startup w = Returned tt
        /\ copies (after world startup w) NAME = copies w NAME).
Proof.
  assert (Hzero : forall r w1,
             world get_collections w = (Returned r, w1) ->
             contains (List.map name (collections r)) NAME = false ->
             copies w NAME = 0%nat).
  { intros r w1 Hg Hc.
    pose proof (listing_truthful laws _ NAME Hg) as Htruth.
    destruct (copies w NAME) eqn:E; [reflexivity | ].
    assert (Hpos : (0 < S n)%nat) by lia.
    apply Htruth in Hpos. rewrite Hc in Hpos. discriminate. }
  unfold result, after, Generated.startup_event. simpl.
  split; [ | split; [ | split]].
  - intros r w1 Hg Hc. rewrite Hg. simpl. rewrite Hc. simpl.
    destruct (world (print _) w1) as [[] w2] eqn:Hp. simpl.
    split.
    + apply (listing_truthful laws _ NAME Hg). exact Hc.
    + rewrite (printing_reads laws _ NAME Hp).
      exact (listing_reads laws _ NAME Hg).
  - intros r w1 w2 Hg Hc Hcr. rewrite Hg. simpl. rewrite Hc. simpl.
    rewrite Hcr. simpl.
    destruct (world (print _) w2) as [[] w3] eqn:Hp. simpl.
    pose proof (Hzero r w1 Hg Hc) as Hz.
    split; [exact Hz | ].
    rewrite (printing_reads laws _ NAME Hp), (creation_adds laws _ Hcr),
      (listing_reads laws _ NAME Hg), Hz. reflexivity.
  - intros r w1 e w2 Hg Hc Hcr. rewrite Hg. simpl. rewrite Hc. simpl.
    rewrite Hcr. simpl.
    destruct (world (print _) w2) as [[] w3] eqn:Hp. simpl.
    split; [reflexivity | ].
    rewrite (printing_reads laws _ NAME Hp), (creation_refused laws _ Hcr),
      (listing_reads laws _ NAME Hg). exact (Hzero r w1 Hg Hc).
  - intros e w1 Hg. rewrite Hg. simpl.
    destruct (world (print _) w1) as [[] w2] eqn:Hp. simpl.
    split; [reflexivity | ].
    rewrite (printing_reads laws _ NAME Hp).
    exact (listing_reads laws _ NAME Hg).
Qed.

End StartupRegistry.

Lemma X17_witness_empty_registry :
  Fake.holds Fake.empty Generated.COLLECTION_NAME = 0%nat
  /\ Fake.holds (after Fake.world Generated.startup_event Fake.empty)
       Generated.COLLECTION_NAME = 1%nat.
Proof.
  apply (proj1 (proj2 (@X17_startup_leaves_one_collection_or_none
                         Fake.World Fake.world Fake.holds
                         fake_obeys_registry_laws Fake.empty))
           (mkCollectionsResponse []) Fake.empty
           (snd (Fake.world
                   (create_collection Generated.COLLECTION_NAME
                      (mkVectorParams 1536 COSINE)) Fake.empty)));
    reflexivity.
Defined.
